(** * apko: image configuration validation and SBOM orchestration

    A shallow embedding of

      - [pkg/build/types/image_configuration.go]
        ([ProbeVCSUrl], [Validate], [ValidateServiceBundle], [Summarize]);
      - the build step [GenerateSBOM] of the build context.

    Go methods with a pointer receiver mutate the receiver in place; they
    are embedded as state transformers on the receiver.  Calls into other
    packages (go-git, net/url, path/filepath, the tarball, name and sbom
    packages) are parameters of the sections that use them. *)

From Stdlib Require Import String Ascii List NArith Bool Lia DecimalString.
Import ListNotations.

Local Open Scope string_scope.
Local Open Scope list_scope.

(** String concatenation, kept apart from list concatenation. *)
Infix "+++" := String.append (right associativity, at level 60).

(** ** Data model *)

(** Modelled from the spec: the struct declarations of the configuration
    ([ImageConfiguration] and its parts, [User], [Group]) are declared in
    another file of the package.  The records carry the fields the
    embedded methods read and write, with the shapes of the data model:
    identifiers are unsigned numbers, [Services] is an ordered list of
    strings. *)

Module User.
Record t : Type := mk {
  UserName : string;
  UID      : N;
  GID      : N
}.
End User.

Module Group.
Record t : Type := mk {
  GroupName : string;
  GID       : N;
  Members   : list string
}.
End Group.

Record Contents_t : Type := mkContents {
  Repositories : list string;
  Keyring      : list string;
  Packages     : list string
}.

(** The Go field is called [Type]; the name is reserved here. *)
Record Entrypoint_t : Type := mkEntrypoint {
  Type_         : string;
  Command       : string;
  Services      : list string;
  ShellFragment : string
}.

Record Accounts_t : Type := mkAccounts {
  RunAs  : string;
  Users  : list User.t;
  Groups : list Group.t
}.

Record OSRelease_t : Type := mkOSRelease {
  ID         : string;
  Name       : string;
  PrettyName : string;
  VersionID  : string;
  HomeURL    : string
}.

Record ImageConfiguration : Type := mkImageConfiguration {
  Contents   : Contents_t;
  Entrypoint : Entrypoint_t;
  Cmd        : string;
  Accounts   : Accounts_t;
  OSRelease  : OSRelease_t;
  VCSUrl     : string
}.

(** Field assignments [ic.X.Y = v]. *)

Definition set_Command (v : string) (ic : ImageConfiguration) : ImageConfiguration :=
  let e := Entrypoint ic in
  mkImageConfiguration (Contents ic)
    (mkEntrypoint (Type_ e) v (Services e) (ShellFragment e))
    (Cmd ic) (Accounts ic) (OSRelease ic) (VCSUrl ic).

Definition set_Packages (v : list string) (ic : ImageConfiguration) : ImageConfiguration :=
  let c := Contents ic in
  mkImageConfiguration (mkContents (Repositories c) (Keyring c) v)
    (Entrypoint ic) (Cmd ic) (Accounts ic) (OSRelease ic) (VCSUrl ic).

Definition set_OSRelease (v : OSRelease_t) (ic : ImageConfiguration) : ImageConfiguration :=
  mkImageConfiguration (Contents ic) (Entrypoint ic) (Cmd ic) (Accounts ic) v (VCSUrl ic).

Definition set_VCSUrl (v : string) (ic : ImageConfiguration) : ImageConfiguration :=
  mkImageConfiguration (Contents ic) (Entrypoint ic) (Cmd ic) (Accounts ic) (OSRelease ic) v.

Definition set_ID (v : string) (o : OSRelease_t) : OSRelease_t :=
  mkOSRelease v (Name o) (PrettyName o) (VersionID o) (HomeURL o).
Definition set_Name (v : string) (o : OSRelease_t) : OSRelease_t :=
  mkOSRelease (ID o) v (PrettyName o) (VersionID o) (HomeURL o).
Definition set_PrettyName (v : string) (o : OSRelease_t) : OSRelease_t :=
  mkOSRelease (ID o) (Name o) v (VersionID o) (HomeURL o).
Definition set_VersionID (v : string) (o : OSRelease_t) : OSRelease_t :=
  mkOSRelease (ID o) (Name o) (PrettyName o) v (HomeURL o).
Definition set_HomeURL (v : string) (o : OSRelease_t) : OSRelease_t :=
  mkOSRelease (ID o) (Name o) (PrettyName o) (VersionID o) v.

(** ** Validation errors

    [Validate] builds its errors with [fmt.Errorf]; each constructor
    stands for one format string and carries the value printed by [%v]. *)

Inductive ConfigurationError : Type :=
| UserNoName   (u : User.t)    (* configured user %v has no configured user name *)
| UserUIDZero  (u : User.t)    (* configured user %v has UID 0 *)
| GroupNoName  (g : Group.t)   (* configured group %v has no configured group name *)
| GroupGIDZero (g : Group.t).  (* configured group %v has GID 0 *)

(** The entity an error message prints. *)
Inductive entity : Type :=
| AUser  (u : User.t)
| AGroup (g : Group.t).

Definition references (e : ConfigurationError) : entity :=
  match e with
  | UserNoName u | UserUIDZero u => AUser u
  | GroupNoName g | GroupGIDZero g => AGroup g
  end.

(** ** A state-and-error monad for methods on [*ImageConfiguration]

    A method body is run from a receiver state and yields the receiver
    state at the point where it returns, together with what it returns:
    [Ok a], or [Err e] for an early [return err]. *)

Inductive result (E A : Type) : Type :=
| Ok  (a : A)
| Err (e : E).
Arguments Ok {E A} a.
Arguments Err {E A} e.

Class Monad (m : Type -> Type) : Type := {
  ret  : forall {A : Type}, A -> m A;
  bind : forall {A B : Type}, m A -> (A -> m B) -> m B
}.

Notation "x <- m ;; k" := (bind m (fun x => k))
  (at level 61, m at next level, right associativity).
Notation "m ;; k" := (bind m (fun _ => k))
  (at level 61, right associativity).

Definition M (A : Type) : Type :=
  ImageConfiguration -> ImageConfiguration * result ConfigurationError A.

#[export] Instance M_monad : Monad M := {|
  ret := fun A (a : A) ic => (ic, Ok a);
  bind := fun A B (m : M A) (k : A -> M B) ic =>
    match m ic with
    | (ic', Ok a) => k a ic'
    | (ic', Err e) => (ic', Err e)
    end
|}.

Definition fail {A} (e : ConfigurationError) : M A := fun ic => (ic, Err e).
Definition get : M ImageConfiguration := fun ic => (ic, Ok ic).
Definition modify (f : ImageConfiguration -> ImageConfiguration) : M unit :=
  fun ic => (f ic, Ok tt).
Definition when (b : bool) (m : M unit) : M unit := if b then m else ret tt.

(** The error a method returns: [None] is Go's [nil]. *)
Definition returned {A} (r : ImageConfiguration * result ConfigurationError A)
  : option ConfigurationError :=
  match snd r with
  | Ok _ => None
  | Err e => Some e
  end.

(** The receiver after the call. *)
Definition after {A} (r : ImageConfiguration * result ConfigurationError A)
  : ImageConfiguration := fst r.

(** ** [ValidateServiceBundle] *)

Definition ValidateServiceBundle : M unit :=
  modify (set_Command "/bin/s6-svscan /sv") ;;
  (* a duplicate entry in /etc/apk/world is harmless *)
  modify (fun ic => set_Packages (Packages (Contents ic) ++ ["s6"]) ic) ;;
  ret tt.

(** ** [Validate] *)

(** [for _, u := range ic.Accounts.Users { ... }] *)
Fixpoint check_users (us : list User.t) : M unit :=
  match us with
  | [] => ret tt
  | u :: rest =>
      if User.UserName u =? "" then fail (UserNoName u)
      else if (User.UID u =? 0)%N then fail (UserUIDZero u)
      else check_users rest
  end.

(** [for _, g := range ic.Accounts.Groups { ... }] *)
Fixpoint check_groups (gs : list Group.t) : M unit :=
  match gs with
  | [] => ret tt
  | g :: rest =>
      if Group.GroupName g =? "" then fail (GroupNoName g)
      else if (Group.GID g =? 0)%N then fail (GroupGIDZero g)
      else check_groups rest
  end.

(** The four trailing [if] statements of [Validate], on the [OSRelease]
    field they work on. *)
Definition defaultOSRelease (o : OSRelease_t) : OSRelease_t :=
  let o := if ID o =? "" then set_ID "alpine" o else o in
  let o := if Name o =? ""
           then set_PrettyName "apko-generated image"
                  (set_Name "apko-generated image" o)
           else o in
  let o := if VersionID o =? "" then set_VersionID "3.16" o else o in
  let o := if HomeURL o =? ""
           then set_HomeURL "https://github.com/chainguard-dev/apko" o
           else o in
  o.

(** The defaulting step on the receiver. *)
Definition apply_defaults (ic : ImageConfiguration) : ImageConfiguration :=
  set_OSRelease (defaultOSRelease (OSRelease ic)) ic.

Definition Validate : M unit :=
  ic <- get ;;
  when (Type_ (Entrypoint ic) =? "service-bundle") ValidateServiceBundle ;;
  ic <- get ;;
  check_users (Users (Accounts ic)) ;;
  ic <- get ;;
  check_groups (Groups (Accounts ic)) ;;
  modify apply_defaults ;;
  ret tt.

(** ** [Summarize]

    The logger is a sink of lines; [Summarize] is embedded as the list of
    lines it hands to [logger.Printf], in order.  It reads the
    configuration and assigns nothing. *)

(** [%v] of a [[]string]: the elements, space separated, in brackets. *)
Definition fmt_v (l : list string) : string :=
  "[" +++ String.concat " " l +++ "]".

(** [%d] of an unsigned number. *)
Definition fmt_d (n : N) : string :=
  NilZero.string_of_uint (N.to_uint n).

Definition contents_block (ic : ImageConfiguration) : list string :=
  [ "  contents:";
    "    repositories: " +++ fmt_v (Repositories (Contents ic));
    "    keyring:      " +++ fmt_v (Keyring (Contents ic));
    "    packages:     " +++ fmt_v (Packages (Contents ic)) ].

Definition entrypoint_block (ic : ImageConfiguration) : list string :=
  [ "  entrypoint:";
    "    type:    " +++ Type_ (Entrypoint ic);
    "    command:     " +++ Command (Entrypoint ic);
    "    service: " +++ fmt_v (Services (Entrypoint ic));
    "    shell fragment: " +++ ShellFragment (Entrypoint ic) ].

Definition user_line (u : User.t) : string :=
  "      - uid=" +++ fmt_d (User.UID u) +++ "(" +++ User.UserName u +++ ") gid="
    +++ fmt_d (User.GID u).

Definition group_line (g : Group.t) : string :=
  "      - gid=" +++ fmt_d (Group.GID g) +++ "(" +++ Group.GroupName g
    +++ ") members=" +++ fmt_v (Group.Members g).

Definition accounts_block (ic : ImageConfiguration) : list string :=
  [ "  accounts:";
    "    runas:  " +++ RunAs (Accounts ic);
    "    users:" ]
  ++ map user_line (Users (Accounts ic))
  ++ [ "    groups:" ]
  ++ map group_line (Groups (Accounts ic)).

(** The condition of the first [if] of [Summarize]. *)
Definition entrypoint_guard (ic : ImageConfiguration) : bool :=
  negb (Type_ (Entrypoint ic) =? "")
  || negb (Command (Entrypoint ic) =? "")
  || negb (Nat.eqb (length (Services (Entrypoint ic))) 0).

(** The condition of the third [if] of [Summarize]. *)
Definition accounts_guard (ic : ImageConfiguration) : bool :=
  negb (RunAs (Accounts ic) =? "")
  || negb (Nat.eqb (length (Users (Accounts ic))) 0)
  || negb (Nat.eqb (length (Groups (Accounts ic))) 0).

Definition Summarize (ic : ImageConfiguration) : list string :=
  [ "image configuration:" ]
  ++ contents_block ic
  ++ (if entrypoint_guard ic then entrypoint_block ic else [])
  ++ (if negb (Cmd ic =? "") then [ "  cmd: " +++ Cmd ic ] else [])
  ++ (if accounts_guard ic then accounts_block ic else []).

(** A block is printed when its lines occur, in order and one after the
    other, in the output. *)
Definition prints (block out : list string) : Prop :=
  exists before rest, out = before ++ block ++ rest.

(** The heading lines that open the two optional blocks. *)
Definition entrypoint_heading : string := "  entrypoint:".
Definition accounts_heading : string := "  accounts:".

(** ** [ProbeVCSUrl] *)

(** Errors of the libraries are kept as the text [%v] prints. *)
Definition goerror : Type := string.

(** [strings.Replace s old new n] for a non-empty [old] and [n >= 0]:
    the first [n] non-overlapping occurrences of [old] are replaced.
    [skip] counts the bytes of a matched [old] still to be dropped. *)
Fixpoint Replace_from (skip : nat) (s old new : string) (n : nat) : string :=
  match s with
  | EmptyString => EmptyString
  | String c s' =>
      match skip with
      | S k => Replace_from k s' old new n
      | O =>
          match n with
          | O => s
          | S n' =>
              if prefix old s
              then new +++ Replace_from (String.length old - 1) s' old new n'
              else String c (Replace_from 0 s' old new n)
          end
      end
  end.

Definition strings_Replace (s old new : string) (n : nat) : string :=
  Replace_from 0 s old new n.

(** [config.RemoteConfig] of go-git, as far as it is read here. *)
Record RemoteConfig : Type := mkRemoteConfig {
  URLs : list string
}.

(** What [ProbeVCSUrl] calls outside the package: [filepath.Dir],
    go-git's [PlainOpen], [Repository.Remote] and [Remote.Config], and
    [url.Parse] with [URL.String]. *)
Record VCSWorld : Type := mkVCSWorld {
  Repository : Type;
  Remote : Type;
  URL : Type;
  filepath_Dir : string -> string;
  git_PlainOpen : string -> result goerror Repository;
  Repository_Remote : Repository -> string -> result goerror Remote;
  Remote_Config : Remote -> RemoteConfig;
  url_Parse : string -> result goerror URL;
  URL_String : URL -> string
}.

(** A Go call either returns or panics. *)
Inductive outcome (A : Type) : Type :=
| Returns (a : A)
| Panics (msg : string).
Arguments Returns {A} a.
Arguments Panics {A} msg.

(** The tail of [ProbeVCSUrl]: the assignment to [ic.VCSUrl] and the
    diagnostic. *)
Definition store_VCSUrl (W : VCSWorld) (normalizedURL : URL W)
    (ic : ImageConfiguration) : ImageConfiguration * list string :=
  let ic := set_VCSUrl (URL_String W normalizedURL) ic in
  (ic, [ "detected " +++ VCSUrl ic +++ " as VCS URL" ]).

(** [ProbeVCSUrl] yields the receiver after the call and the lines given
    to [log.Printf], unless indexing [remoteConfig.URLs] panics. *)
Definition ProbeVCSUrl (W : VCSWorld) (imageConfigPath : string)
    (ic : ImageConfiguration) : outcome (ImageConfiguration * list string) :=
  let parentDir := filepath_Dir W imageConfigPath in
  if parentDir =? "" then Returns (ic, [])
  else
    match git_PlainOpen W parentDir with
    | Err err => Returns (ic, [ "unable to determine git vcs url: " +++ err ])
    | Ok repo =>
        match Repository_Remote W repo "origin" with
        | Err err => Returns (ic, [ "unable to determine git vcs url: " +++ err ])
        | Ok remote =>
            let remoteConfig := Remote_Config W remote in
            match URLs remoteConfig with
            | [] => Panics "runtime error: index out of range [0] with length 0"
            | remoteURL :: _ =>
                match url_Parse W remoteURL with
                | Ok normalizedURL => Returns (store_VCSUrl W normalizedURL ic)
                | Err _ =>
                    let remoteURL := strings_Replace remoteURL ":" "/" 1 in
                    let remoteURL := "git+ssh://" +++ remoteURL in
                    match url_Parse W remoteURL with
                    | Err err =>
                        Returns (ic, [ "unable to parse " +++ remoteURL
                                         +++ " as a git vcs url: " +++ err ])
                    | Ok normalizedURL =>
                        Returns (store_VCSUrl W normalizedURL ic)
                    end
                end
            end
        end
    end.

(** ** [GenerateSBOM] *)

(** Modelled from the spec: the SBOM value of package [sbom] is declared
    outside the embedded file.  The records hold the generation options
    [GenerateSBOM] assigns: image tag, name, architecture and digest,
    output directory, package list and formats, over the type [P] of
    package records. *)
Module sbom.
Record ImageInfo_t : Type := mkImageInfo {
  Tag    : string;
  Name   : string;
  Arch   : string;
  Digest : string
}.

Record Options_t (P : Type) : Type := mkOptions {
  ImageInfo : ImageInfo_t;
  OutputDir : string;
  Packages  : list P;
  Formats   : list string
}.
Arguments mkOptions {P}.
Arguments ImageInfo {P}.
Arguments OutputDir {P}.
Arguments Packages {P}.
Arguments Formats {P}.

Record SBOM (P : Type) : Type := mkSBOM {
  WorkDir : string;
  Options : Options_t P
}.
Arguments mkSBOM {P}.
Arguments WorkDir {P}.
Arguments Options {P}.

Definition with_Options {P} (f : Options_t P -> Options_t P) (s : SBOM P) : SBOM P :=
  mkSBOM (WorkDir s) (f (Options s)).

Definition with_ImageInfo {P} (f : ImageInfo_t -> ImageInfo_t) (s : SBOM P) : SBOM P :=
  with_Options (fun o => mkOptions (f (ImageInfo o)) (OutputDir o) (Packages o) (Formats o)) s.

Definition set_Tag {P} (v : string) : SBOM P -> SBOM P :=
  with_ImageInfo (fun i => mkImageInfo v (Name i) (Arch i) (Digest i)).
Definition set_Name {P} (v : string) : SBOM P -> SBOM P :=
  with_ImageInfo (fun i => mkImageInfo (Tag i) v (Arch i) (Digest i)).
Definition set_Arch {P} (v : string) : SBOM P -> SBOM P :=
  with_ImageInfo (fun i => mkImageInfo (Tag i) (Name i) v (Digest i)).
Definition set_Digest {P} (v : string) : SBOM P -> SBOM P :=
  with_ImageInfo (fun i => mkImageInfo (Tag i) (Name i) (Arch i) v).
Definition set_OutputDir {P} (v : string) : SBOM P -> SBOM P :=
  with_Options (fun o => mkOptions (ImageInfo o) v (Packages o) (Formats o)).
Definition set_Packages {P} (v : list P) : SBOM P -> SBOM P :=
  with_Options (fun o => mkOptions (ImageInfo o) (OutputDir o) v (Formats o)).
Definition set_Formats {P} (v : list string) : SBOM P -> SBOM P :=
  with_Options (fun o => mkOptions (ImageInfo o) (OutputDir o) (Packages o) v).
End sbom.

(** Modelled from the spec: the build context is declared in another
    file of package [build]; the record has the fields [GenerateSBOM]
    reads: work directory, requested SBOM formats, tarball path, registry
    tags, target architecture and SBOM output directory. *)
Record Context : Type := mkContext {
  WorkDir     : string;
  SBOMFormats : list string;
  TarballPath : string;
  Tags        : list string;
  Arch        : string;
  SBOMPath    : string
}.

(** What [GenerateSBOM] calls outside its file: [sbom.NewWithWorkDir],
    [v1tar.LayerFromFile], the layer's [Digest], [name.NewTag] with the
    tag's [TagStr] and [String], and the [ReadPackageIndex] and [Generate]
    methods of the SBOM value, which see the options set so far. *)
Record SBOMWorld : Type := mkSBOMWorld {
  Layer : Type;
  Hash : Type;
  NameTag : Type;
  Package : Type;
  sbom_NewWithWorkDir : string -> sbom.SBOM Package;
  v1tar_LayerFromFile : string -> result goerror Layer;
  Layer_Digest : Layer -> result goerror Hash;
  Hash_String : Hash -> string;
  name_NewTag : string -> result goerror NameTag;
  Tag_TagStr : NameTag -> string;
  Tag_String : NameTag -> string;
  SBOM_ReadPackageIndex : sbom.SBOM Package -> result goerror (list Package);
  SBOM_Generate : sbom.SBOM Package -> result goerror (list string)
}.

(** The stages of the pipeline. *)
Inductive stage : Type :=
| LayerRead
| DigestStage
| TagParse
| PackageIndexRead
| Generation.

(** What a run does, in order: diagnostics and the calls that leave the
    file. *)
Inductive event : Type :=
| Logged (msg : string)
| NewSBOM (workDir : string)
| Ran (st : stage).

(** The errors [GenerateSBOM] returns; each wraps the cause with [%w]. *)
Inductive SBOMError : Type :=
| LayerReadError      (cause : goerror)   (* failed to create OCI layer from tar.gz: %w *)
| DigestError         (cause : goerror)   (* could not calculate layer digest: %w *)
| TagParseError       (tag : string) (cause : goerror)  (* parsing tag %s: %w *)
| PackageIndexError   (cause : goerror)   (* getting installed packages from sbom: %w *)
| SBOMGenerationError (cause : goerror).  (* generating SBOMs: %w *)

Definition error_stage (e : SBOMError) : stage :=
  match e with
  | LayerReadError _ => LayerRead
  | DigestError _ => DigestStage
  | TagParseError _ _ => TagParse
  | PackageIndexError _ => PackageIndexRead
  | SBOMGenerationError _ => Generation
  end.

(** A build step leaves a trace of events and returns or fails. *)
Definition B (A : Type) : Type := list event * result SBOMError A.

#[export] Instance B_monad : Monad B := {|
  ret := fun A (a : A) => ([], Ok a);
  bind := fun A B (m : list event * result SBOMError A)
              (k : A -> list event * result SBOMError B) =>
    match m with
    | (t, Ok a) => let (t', r) := k a in (t ++ t', r)
    | (t, Err e) => (t, Err e)
    end
|}.

Definition log_Printf (msg : string) : B unit := ([Logged msg], Ok tt).

Definition new_sbom (W : SBOMWorld) (workDir : string) : B (sbom.SBOM (Package W)) :=
  ([NewSBOM workDir], Ok (sbom_NewWithWorkDir W workDir)).

(** A call of stage [st] whose error, if any, is wrapped and returned. *)
Definition run {A} (st : stage) (r : result goerror A)
    (wrap : goerror -> SBOMError) : B A :=
  ([Ran st], match r with Ok a => Ok a | Err err => Err (wrap err) end).

Definition GenerateSBOM (W : SBOMWorld) (bc : Context) : B unit :=
  if Nat.eqb (length (SBOMFormats bc)) 0 then
    log_Printf "skipping SBOM generation" ;;
    ret tt
  else
    log_Printf "generating SBOM" ;;
    s <- new_sbom W (WorkDir bc) ;;
    v1Layer <- run LayerRead (v1tar_LayerFromFile W (TarballPath bc)) LayerReadError ;;
    digest <- run DigestStage (Layer_Digest W v1Layer) DigestError ;;
    s <- match Tags bc with
         | [] => ret s
         | tag0 :: _ =>
             tag <- run TagParse (name_NewTag W tag0) (TagParseError tag0) ;;
             ret (sbom.set_Name (Tag_String W tag)
                    (sbom.set_Tag (Tag_TagStr W tag) s))
         end ;;
    packages <- run PackageIndexRead (SBOM_ReadPackageIndex W s) PackageIndexError ;;
    let s := sbom.set_Arch (Arch bc) s in
    let s := sbom.set_Digest (Hash_String W digest) s in
    let s := sbom.set_OutputDir (SBOMPath bc) s in
    let s := sbom.set_Packages packages s in
    let s := sbom.set_Formats (SBOMFormats bc) s in
    run Generation (SBOM_Generate W s) SBOMGenerationError ;;
    ret tt.

(** What [GenerateSBOM] returns: [None] is [nil]. *)
Definition sbom_returned (r : B unit) : option SBOMError :=
  match snd r with
  | Ok _ => None
  | Err e => Some e
  end.

(** The stages a run entered, in order. *)
Definition stages_run (r : B unit) : list stage :=
  flat_map (fun ev => match ev with Ran st => [st] | _ => [] end) (fst r).

(** ** Reference points for the properties *)

(** A user, or a group, that [Validate] turns down, and the error it
    returns for it. *)
Definition user_invalid (u : User.t) : bool :=
  (User.UserName u =? "") || (User.UID u =? 0)%N.

Definition group_invalid (g : Group.t) : bool :=
  (Group.GroupName g =? "") || (Group.GID g =? 0)%N.

Definition user_error (u : User.t) : ConfigurationError :=
  if User.UserName u =? "" then UserNoName u else UserUIDZero u.

Definition group_error (g : Group.t) : ConfigurationError :=
  if Group.GroupName g =? "" then GroupNoName g else GroupGIDZero g.

(** The first violation in declaration order, users before groups. *)
Definition first_violation (ic : ImageConfiguration) : option ConfigurationError :=
  match find user_invalid (Users (Accounts ic)) with
  | Some u => Some (user_error u)
  | None =>
      match find group_invalid (Groups (Accounts ic)) with
      | Some g => Some (group_error g)
      | None => None
      end
  end.

(** The receiver once [ValidateServiceBundle] has run. *)
Definition service_bundle (ic : ImageConfiguration) : ImageConfiguration :=
  set_Packages (Packages (Contents ic) ++ ["s6"])
    (set_Command "/bin/s6-svscan /sv" ic).

(** The receiver when [Validate] reaches the user checks. *)
Definition specialized (ic : ImageConfiguration) : ImageConfiguration :=
  if Type_ (Entrypoint ic) =? "service-bundle" then service_bundle ic else ic.

(** Defaulting as the specification words it: every field on its own,
    and only when that field is empty. *)
Definition default_if_empty (d v : string) : string :=
  if v =? "" then d else v.

Definition defaultOSRelease_per_field (o : OSRelease_t) : OSRelease_t :=
  mkOSRelease
    (default_if_empty "alpine" (ID o))
    (default_if_empty "apko-generated image" (Name o))
    (default_if_empty "apko-generated image" (PrettyName o))
    (default_if_empty "3.16" (VersionID o))
    (default_if_empty "https://github.com/chainguard-dev/apko" (HomeURL o)).

(** The order of the stages of [GenerateSBOM] for a context: the tag is
    parsed only when a tag is configured. *)
Definition pipeline (bc : Context) : list stage :=
  [LayerRead; DigestStage]
  ++ match Tags bc with [] => [] | _ :: _ => [TagParse] end
  ++ [PackageIndexRead; Generation].

Definition stage_eqb (a b : stage) : bool :=
  match a, b with
  | LayerRead, LayerRead
  | DigestStage, DigestStage
  | TagParse, TagParse
  | PackageIndexRead, PackageIndexRead
  | Generation, Generation => true
  | _, _ => false
  end.

(** The stages of [l] up to and including the first [st]. *)
Fixpoint upto (st : stage) (l : list stage) : list stage :=
  match l with
  | [] => []
  | x :: l' => if stage_eqb x st then [x] else x :: upto st l'
  end.

(** No colon among the characters of a string. *)
Fixpoint no_colon (s : string) : bool :=
  match s with
  | EmptyString => true
  | String c s' => negb (Ascii.eqb c ":"%char) && no_colon s'
  end.

(** ** Sample inputs *)

Definition empty_configuration : ImageConfiguration :=
  mkImageConfiguration (mkContents [] [] []) (mkEntrypoint "" "" [] "") ""
    (mkAccounts "" [] []) (mkOSRelease "" "" "" "" "") "".

Definition with_Users (us : list User.t) (ic : ImageConfiguration) : ImageConfiguration :=
  mkImageConfiguration (Contents ic) (Entrypoint ic) (Cmd ic)
    (mkAccounts (RunAs (Accounts ic)) us (Groups (Accounts ic)))
    (OSRelease ic) (VCSUrl ic).

Definition with_Groups (gs : list Group.t) (ic : ImageConfiguration) : ImageConfiguration :=
  mkImageConfiguration (Contents ic) (Entrypoint ic) (Cmd ic)
    (mkAccounts (RunAs (Accounts ic)) (Users (Accounts ic)) gs)
    (OSRelease ic) (VCSUrl ic).

Definition with_Entrypoint (e : Entrypoint_t) (ic : ImageConfiguration) : ImageConfiguration :=
  mkImageConfiguration (Contents ic) e (Cmd ic) (Accounts ic) (OSRelease ic) (VCSUrl ic).

Definition nameless : User.t := User.mk "" 1000 1000.
Definition root : User.t := User.mk "root" 0 0.
Definition app : User.t := User.mk "app" 1000 1000.
Definition wheel : Group.t := Group.mk "wheel" 0 ["app"].

(** A nameless user declared ahead of a user with UID 0. *)
Definition nameless_then_root : ImageConfiguration :=
  with_Users [nameless; root] empty_configuration.

(** A valid user declared ahead of a user with UID 0. *)
Definition app_then_root : ImageConfiguration :=
  with_Users [app; root] empty_configuration.

(** A service bundle that already lists the supervisor package. *)
Definition bundle_with_s6 : ImageConfiguration :=
  set_Packages ["s6"; "busybox"]
    (with_Entrypoint (mkEntrypoint "service-bundle" "/bin/sh" [] "")
       empty_configuration).

(** A service bundle with a user of UID 0. *)
Definition bundle_with_root : ImageConfiguration :=
  with_Users [root] bundle_with_s6.

(** Only the pretty name is given. *)
Definition pretty_only : ImageConfiguration :=
  set_OSRelease (mkOSRelease "" "" "Custom Linux" "" "") empty_configuration.

(** Only the name is given. *)
Definition name_only : ImageConfiguration :=
  set_OSRelease (mkOSRelease "" "custom" "" "" "") empty_configuration.

(** Only the shell fragment of the entrypoint is given. *)
Definition shell_fragment_only : ImageConfiguration :=
  with_Entrypoint (mkEntrypoint "" "" [] "exec /usr/bin/app") empty_configuration.

(** The end-to-end example: one user, nothing else. *)
Definition one_user : ImageConfiguration :=
  with_Users [app] empty_configuration.

(** *** Worlds for [ProbeVCSUrl] *)

(** The head of [url.Parse]: the scheme is split off as [getScheme] does,
    and a reference without scheme and without leading slash is refused
    when its first path segment holds a colon.  What passes is kept as
    written, so [String] gives it back. *)
Definition is_letter (c : ascii) : bool :=
  let n := nat_of_ascii c in
  (Nat.leb 97 n && Nat.leb n 122) || (Nat.leb 65 n && Nat.leb n 90).

Definition is_scheme_mark (c : ascii) : bool :=
  let n := nat_of_ascii c in
  (Nat.leb 48 n && Nat.leb n 57)
  || Ascii.eqb c "+"%char || Ascii.eqb c "-"%char || Ascii.eqb c "."%char.

Fixpoint getScheme_at (i : nat) (rest rawURL : string)
  : result goerror (string * string) :=
  match rest with
  | EmptyString => Ok (EmptyString, rawURL)
  | String c rest' =>
      if is_letter c then getScheme_at (S i) rest' rawURL
      else if is_scheme_mark c then
        match i with
        | O => Ok (EmptyString, rawURL)
        | S _ => getScheme_at (S i) rest' rawURL
        end
      else if Ascii.eqb c ":"%char then
        match i with
        | O => Err "missing protocol scheme"
        | S _ => Ok (substring 0 i rawURL, rest')
        end
      else Ok (EmptyString, rawURL)
  end.

Definition getScheme (rawURL : string) : result goerror (string * string) :=
  getScheme_at 0 rawURL rawURL.

Fixpoint first_segment_has_colon (s : string) : bool :=
  match s with
  | EmptyString => false
  | String c s' =>
      if Ascii.eqb c "/"%char then false
      else if Ascii.eqb c ":"%char then true
      else first_segment_has_colon s'
  end.

Definition parse_head (rawURL : string) : result goerror string :=
  match getScheme rawURL with
  | Err e => Err e
  | Ok (scheme, rest) =>
      if prefix "/" rest then Ok rawURL
      else if negb (scheme =? "") then Ok rawURL
      else if first_segment_has_colon rest
           then Err "first path segment in URL cannot contain colon"
           else Ok rawURL
  end.

(** A checkout whose [origin] remote has the given URLs; every path has
    [/src/app] as its directory. *)
Definition checkout (urls : list string) : VCSWorld :=
  mkVCSWorld unit unit string
    (fun _ => "/src/app")
    (fun _ => Ok tt)
    (fun _ name => if name =? "origin" then Ok tt else Err "remote not found")
    (fun _ => mkRemoteConfig urls)
    parse_head
    (fun u => u).

(** No repository anywhere. *)
Definition no_repository : VCSWorld :=
  mkVCSWorld unit unit string
    (fun _ => "/tmp")
    (fun _ => Err "repository does not exist")
    (fun _ _ => Err "remote not found")
    (fun _ => mkRemoteConfig [])
    parse_head
    (fun u => u).

(** An [origin] section that names no URL. *)
Definition origin_without_url : VCSWorld := checkout [].

(** An [origin] in SSH shorthand. *)
Definition ssh_origin : VCSWorld := checkout ["git@host:org/repo.git"].

(** *** Worlds for [GenerateSBOM] *)

Definition answer (ok : bool) (why : goerror) : result goerror unit :=
  if ok then Ok tt else Err why.

(** A world in which each stage succeeds or fails as told. *)
Definition staged_world (layer digest tag index generate : bool) : SBOMWorld :=
  mkSBOMWorld unit unit unit string
    (fun workDir => sbom.mkSBOM workDir
                      (sbom.mkOptions (sbom.mkImageInfo "" "" "" "") "" [] []))
    (fun _ => answer layer "open: no such file or directory")
    (fun _ => answer digest "unexpected EOF")
    (fun _ => "sha256:0000")
    (fun _ => answer tag "could not parse reference")
    (fun _ => "latest")
    (fun _ => "index.docker.io/library/app:latest")
    (fun _ => if index then Ok ["busybox"] else Err "installed: no such file")
    (fun _ => if generate then Ok ["sbom.spdx.json"] else Err "write failed").

Definition context_without_formats : Context :=
  mkContext "/work" [] "/work/layer.tar.gz" ["app:latest"] "amd64" "/out".

Definition context_with_bad_tag : Context :=
  mkContext "/work" ["spdx"] "/work/layer.tar.gz" ["App:Not A Tag"] "amd64" "/out".

(** ** [Load] *)

(** What [Load] calls outside the package: [os.ReadFile], and
    [yaml.Unmarshal] into the receiver, which yields the receiver as the
    decoder leaves it and the decoder's error, if any. *)
Record FileWorld : Type := mkFileWorld {
  os_ReadFile : string -> result goerror (list Byte.byte);
  yaml_Unmarshal : list Byte.byte -> ImageConfiguration
                   -> ImageConfiguration * option goerror
}.

(** The errors [Load] returns; each wraps the cause with [%w]. *)
Inductive LoadError : Type :=
| ReadError  (cause : goerror)   (* failed to read image configuration file: %w *)
| ParseError (cause : goerror).  (* failed to parse image configuration: %w *)

(** [Load] yields the receiver after the call, the lines logged on the
    way and the error returned ([None] is [nil]), unless the probe
    panics. *)
Definition Load (F : FileWorld) (W : VCSWorld) (imageConfigPath : string)
    (ic : ImageConfiguration)
  : outcome (ImageConfiguration * list string * option LoadError) :=
  match os_ReadFile F imageConfigPath with
  | Err err => Returns (ic, [], Some (ReadError err))
  | Ok data =>
      match yaml_Unmarshal F data ic with
      | (ic, Some err) => Returns (ic, [], Some (ParseError err))
      | (ic, None) =>
          if VCSUrl ic =? "" then
            match ProbeVCSUrl W imageConfigPath ic with
            | Returns (ic, log) => Returns (ic, log, None)
            | Panics msg => Panics msg
            end
          else Returns (ic, [], None)
      end
  end.

(** *** Worlds for [Load] *)

(** One file, [/src/app/apko.yaml], which decodes to the given
    configuration whatever the receiver held. *)
Definition one_document (doc : ImageConfiguration) : FileWorld :=
  mkFileWorld
    (fun path => if path =? "/src/app/apko.yaml" then Ok []
                 else Err "open: no such file or directory")
    (fun _ _ => (doc, None)).

(** One file that does not decode; the decoder leaves the receiver as it
    was. *)
Definition broken_document : FileWorld :=
  mkFileWorld
    (fun _ => Ok [])
    (fun _ ic => (ic, Some "yaml: unmarshal errors")).

(** A user line and a group line of the summary start like this. *)
Definition is_user_line (l : string) : bool := prefix "      - uid=" l.
Definition is_group_line (l : string) : bool := prefix "      - gid=" l.

(** Validity of the declared identities, as [Validate] checks it. *)
Definition user_ok (u : User.t) : Prop :=
  User.UserName u <> "" /\ User.UID u <> 0%N.

Definition group_ok (g : Group.t) : Prop :=
  Group.GroupName g <> "" /\ Group.GID g <> 0%N.

(** The context with another list of tags. *)
Definition with_Tags (tags : list string) (bc : Context) : Context :=
  mkContext (WorkDir bc) (SBOMFormats bc) (TarballPath bc) tags (Arch bc)
    (SBOMPath bc).

Definition context_with_tag : Context :=
  mkContext "/work" ["spdx"; "cyclonedx"] "/work/layer.tar.gz"
    ["app:latest"; "app:1.0"] "amd64" "/out".

(** The world in which every remote keeps the first of its URLs only. *)
Definition first_url_only (W : VCSWorld) : VCSWorld :=
  mkVCSWorld (Repository W) (Remote W) (URL W)
    (filepath_Dir W) (git_PlainOpen W) (Repository_Remote W)
    (fun remote => mkRemoteConfig (firstn 1 (URLs (Remote_Config W remote))))
    (url_Parse W) (URL_String W).

(** A checkout with an HTTPS [origin] and a mirror behind it. *)
Definition https_origin : VCSWorld :=
  checkout ["https://github.com/chainguard-dev/apko.git";
            "git@mirror:chainguard-dev/apko.git"].

(** A document that names its VCS URL. *)
Definition with_vcs_url : ImageConfiguration :=
  set_VCSUrl "https://example.com/app.git" one_user.

(** The SBOM value when [GenerateSBOM] reaches the package-index read:
    the one made for the work directory, with tag and name assigned from
    the first tag when a tag is configured and parses. *)
Definition identified (W : SBOMWorld) (bc : Context)
    (s : sbom.SBOM (Package W)) : Prop :=
  match Tags bc with
  | [] => s = sbom_NewWithWorkDir W (WorkDir bc)
  | tag0 :: _ =>
      exists tag,
        name_NewTag W tag0 = Ok tag
        /\ s = sbom.set_Name (Tag_String W tag)
                 (sbom.set_Tag (Tag_TagStr W tag)
                    (sbom_NewWithWorkDir W (WorkDir bc)))
  end.

(** The five assignments to [s.Options] ahead of [s.Generate]. *)
Definition assembled (W : SBOMWorld) (bc : Context) (digest : Hash W)
    (packages : list (Package W)) (s : sbom.SBOM (Package W))
  : sbom.SBOM (Package W) :=
  let s := sbom.set_Arch (Arch bc) s in
  let s := sbom.set_Digest (Hash_String W digest) s in
  let s := sbom.set_OutputDir (SBOMPath bc) s in
  let s := sbom.set_Packages packages s in
  let s := sbom.set_Formats (SBOMFormats bc) s in
  s.

(** The trace of a run that entered the given stages. *)
Definition trace_of (bc : Context) (stages : list stage) : list event :=
  Logged "generating SBOM" :: NewSBOM (WorkDir bc) :: map Ran stages.

(** ** Proof automation *)

(** Case analysis on which fields are empty: a test already decided is
    rewritten, a test on a field not yet looked at is split. *)
Ltac by_emptiness :=
  repeat (cbn;
          match goal with
          | H : String.eqb ?s EmptyString = _
            |- context [String.eqb ?s EmptyString] => rewrite H
          | |- context [String.eqb ?s EmptyString] =>
              is_var s; destruct (String.eqb s EmptyString) eqn:?
          end).

(** Splitting on the result of a call of the pipeline: on an error the
    remaining goal is closed by [tac]. *)
Ltac call_of f tac :=
  match goal with
  | |- context [f ?W ?x] =>
      let H := fresh "Hcall" in
      destruct (f W x) eqn:H; cbn; [|tac]
  end.

(** Membership in the pieces [Summarize] is put together from, reduced
    to equations between lines. *)
Ltac lines H :=
  repeat (apply in_app_or in H; destruct H as [H|H]);
  try (apply in_map_iff in H; destruct H as (? & H & _));
  cbn in H;
  repeat (destruct H as [H|H]);
  try contradiction; try discriminate H.

(** * Properties *)

(** ** The two loops of [Validate] *)

Lemma check_users_find (us : list User.t) (ic : ImageConfiguration) :
  check_users us ic =
  (ic, match find user_invalid us with
       | Some u => Err (user_error u)
       | None => Ok tt
       end).
Proof.
  induction us as [|u rest IH]; [reflexivity|].
  cbn [check_users find]. unfold user_invalid at 1.
  destruct (User.UserName u =? "") eqn:Hname; cbn [orb].
  - unfold user_error. now rewrite Hname.
  - destruct (User.UID u =? 0)%N; [|exact IH].
    unfold user_error. now rewrite Hname.
Qed.

Lemma check_groups_find (gs : list Group.t) (ic : ImageConfiguration) :
  check_groups gs ic =
  (ic, match find group_invalid gs with
       | Some g => Err (group_error g)
       | None => Ok tt
       end).
Proof.
  induction gs as [|g rest IH]; [reflexivity|].
  cbn [check_groups find]. unfold group_invalid at 1.
  destruct (Group.GroupName g =? "") eqn:Hname; cbn [orb].
  - unfold group_error. now rewrite Hname.
  - destruct (Group.GID g =? 0)%N; [|exact IH].
    unfold group_error. now rewrite Hname.
Qed.

(** The service-bundle specialization leaves accounts and OS release
    alone. *)
Lemma specialized_Accounts (ic : ImageConfiguration) :
  Accounts (specialized ic) = Accounts ic.
Proof. unfold specialized. now destruct (_ =? _). Qed.

Lemma specialized_OSRelease (ic : ImageConfiguration) :
  OSRelease (specialized ic) = OSRelease ic.
Proof. unfold specialized. now destruct (_ =? _). Qed.

(** [Validate] in one step: the specialization always happens; the
    defaults are written only when no user and no group is turned down. *)
Lemma Validate_run (ic : ImageConfiguration) :
  Validate ic =
  match first_violation ic with
  | Some e => (specialized ic, Err e)
  | None => (apply_defaults (specialized ic), Ok tt)
  end.
Proof.
  unfold Validate, first_violation, get, when, modify.
  cbn [bind ret M_monad].
  assert (Hs : (if Type_ (Entrypoint ic) =? "service-bundle"
                then ValidateServiceBundle else (fun ic0 => (ic0, Ok tt))) ic
               = (specialized ic, Ok tt)).
  { unfold specialized. destruct (_ =? _); reflexivity. }
  rewrite Hs.
  rewrite check_users_find, specialized_Accounts.
  destruct (find user_invalid (Users (Accounts ic))); [reflexivity|].
  rewrite check_groups_find.
  destruct (find group_invalid (Groups (Accounts ic))); [reflexivity|].
  reflexivity.
Qed.

Lemma Validate_returned (ic : ImageConfiguration) :
  returned (Validate ic) = first_violation ic.
Proof.
  rewrite Validate_run. now destruct (first_violation ic).
Qed.

Lemma find_first {A} (p : A -> bool) (pre : list A) (x : A) (post : list A) :
  forallb (fun y => negb (p y)) pre = true ->
  p x = true ->
  find p (pre ++ x :: post) = Some x.
Proof.
  induction pre as [|y pre IH]; cbn; intros Hpre Hx.
  - now rewrite Hx.
  - apply andb_prop in Hpre as [Hy Hpre].
    apply negb_true_iff in Hy. rewrite Hy. now apply IH.
Qed.

Lemma find_some_of_In {A} (p : A -> bool) (l : list A) (x : A) :
  In x l -> p x = true -> exists y, find p l = Some y.
Proof.
  induction l as [|z l IH]; cbn; [easy|].
  intros [->|Hin] Hx.
  - rewrite Hx. eauto.
  - destruct (p z); eauto.
Qed.

(** ** Rejection of UID 0 and GID 0 *)

Lemma user_error_references (u : User.t) : references (user_error u) = AUser u.
Proof. unfold user_error. now destruct (_ =? _). Qed.

Lemma group_error_references (g : Group.t) : references (group_error g) = AGroup g.
Proof. unfold group_error. now destruct (_ =? _). Qed.

Lemma uid_zero_invalid (u : User.t) : User.UID u = 0%N -> user_invalid u = true.
Proof. unfold user_invalid. intros ->. apply orb_true_r. Qed.

Lemma gid_zero_invalid (g : Group.t) : Group.GID g = 0%N -> group_invalid g = true.
Proof. unfold group_invalid. intros ->. apply orb_true_r. Qed.

(** C1, as stated, fails: with a nameless user declared ahead of a user
    with UID 0, [Validate] returns the error of the nameless user, and
    that error does not reference the user with UID 0. *)
Lemma Validate_uid_zero_behind_nameless :
  In root (Users (Accounts nameless_then_root))
  /\ User.UID root = 0%N
  /\ returned (Validate nameless_then_root) = Some (UserNoName nameless)
  /\ references (UserNoName nameless) <> AUser root.
Proof.
  repeat split.
  - right. now left.
  - discriminate.
Qed.

(** C1, amended: a configuration with a user of UID 0 is turned down
    with an error, never accepted; the error is the one of the first
    user in declaration order that has no name or UID 0, and references
    that user.  It references the given user of UID 0 when every user
    declared before it is valid, and then says [UID 0] unless that user
    has no name either.  A group of GID 0 makes [Validate] return an
    error as well: the first violation, which is the first invalid group
    when all users are valid. *)
Theorem Validate_rejects_zero_ids (ic : ImageConfiguration) :
  (forall u : User.t,
      In u (Users (Accounts ic)) -> User.UID u = 0%N ->
      exists v,
        find user_invalid (Users (Accounts ic)) = Some v
        /\ returned (Validate ic) = Some (user_error v)
        /\ references (user_error v) = AUser v
        /\ (forall pre post,
               Users (Accounts ic) = pre ++ u :: post ->
               forallb (fun w => negb (user_invalid w)) pre = true ->
               v = u
               /\ (User.UserName u <> "" ->
                   returned (Validate ic) = Some (UserUIDZero u))))
  /\
  (forall g : Group.t,
      In g (Groups (Accounts ic)) -> Group.GID g = 0%N ->
      exists e,
        returned (Validate ic) = Some e
        /\ (find user_invalid (Users (Accounts ic)) = None ->
            exists w,
              find group_invalid (Groups (Accounts ic)) = Some w
              /\ e = group_error w
              /\ references e = AGroup w)).
Proof.
  split.
  - intros u Hin Hz.
    destruct (find_some_of_In user_invalid _ u Hin (uid_zero_invalid u Hz))
      as [v Hv].
    exists v. rewrite Validate_returned. unfold first_violation. rewrite Hv.
    split; [reflexivity|]. split; [reflexivity|].
    split; [apply user_error_references|].
    intros pre post Hsplit Hpre.
    rewrite Hsplit in Hv.
    rewrite (find_first user_invalid pre u post Hpre (uid_zero_invalid u Hz)) in Hv.
    injection Hv as <-. split; [reflexivity|].
    intros Hname. unfold user_error.
    apply String.eqb_neq in Hname. now rewrite Hname.
  - intros g Hin Hz.
    destruct (find_some_of_In group_invalid _ g Hin (gid_zero_invalid g Hz))
      as [w Hw].
    rewrite Validate_returned. unfold first_violation. rewrite Hw.
    destruct (find user_invalid (Users (Accounts ic))) as [v|].
    + eexists. split; [reflexivity|]. discriminate.
    + exists (group_error w). split; [reflexivity|]. intros _.
      exists w. repeat split. apply group_error_references.
Qed.

Lemma Validate_rejects_zero_ids_witness :
  returned (Validate app_then_root) = Some (UserUIDZero root)
  /\ exists e, returned (Validate (with_Groups [wheel] one_user)) = Some e
               /\ references e = AGroup wheel.
Proof.
  split.
  - destruct (proj1 (Validate_rejects_zero_ids app_then_root) root)
      as (v & _ & _ & _ & Hpos); [right; now left | reflexivity |].
    apply (Hpos [app] []); [reflexivity | reflexivity | discriminate].
  - destruct (proj2 (Validate_rejects_zero_ids (with_Groups [wheel] one_user)) wheel)
      as (e & He & Hg); [now left | reflexivity |].
    exists e. split; [exact He|].
    destruct (Hg eq_refl) as (w & Hw & _ & Hr).
    injection Hw as <-. exact Hr.
Defined.

(** ** Service bundles *)

Lemma specialized_service_bundle (ic : ImageConfiguration) :
  Type_ (Entrypoint ic) = "service-bundle" -> specialized ic = service_bundle ic.
Proof. unfold specialized. now intros ->. Qed.

Lemma specialized_other (ic : ImageConfiguration) :
  Type_ (Entrypoint ic) <> "service-bundle" -> specialized ic = ic.
Proof.
  unfold specialized. intros H. apply String.eqb_neq in H. now rewrite H.
Qed.

Lemma count_occ_snoc (l : list string) (x : string) :
  count_occ string_dec (l ++ [x]) x = S (count_occ string_dec l x).
Proof.
  rewrite count_occ_app. cbn.
  destruct (string_dec x x); [lia | congruence].
Qed.

(** C2: when [Validate] succeeds on a service bundle, the command is the
    supervisor invocation and the package list is the old one with [s6]
    appended at the end, so [s6] occurs in it, once more than before. *)
Theorem Validate_service_bundle (ic : ImageConfiguration) :
  Type_ (Entrypoint ic) = "service-bundle" ->
  returned (Validate ic) = None ->
  Command (Entrypoint (after (Validate ic))) = "/bin/s6-svscan /sv"
  /\ In "s6" (Packages (Contents (after (Validate ic))))
  /\ Packages (Contents (after (Validate ic))) = Packages (Contents ic) ++ ["s6"]
  /\ count_occ string_dec (Packages (Contents (after (Validate ic)))) "s6"
     = S (count_occ string_dec (Packages (Contents ic)) "s6").
Proof.
  intros Hty Hok. rewrite Validate_returned in Hok.
  rewrite Validate_run, Hok, (specialized_service_bundle ic Hty).
  cbn. repeat split.
  - apply in_or_app. right. now left.
  - apply count_occ_snoc.
Qed.

Lemma Validate_service_bundle_witness :
  Command (Entrypoint (after (Validate bundle_with_s6))) = "/bin/s6-svscan /sv"
  /\ In "s6" (Packages (Contents (after (Validate bundle_with_s6))))
  /\ Packages (Contents (after (Validate bundle_with_s6))) = ["s6"; "busybox"; "s6"]
  /\ count_occ string_dec (Packages (Contents (after (Validate bundle_with_s6)))) "s6" = 2.
Proof.
  apply (Validate_service_bundle bundle_with_s6); reflexivity.
Defined.

(** ** OS release defaults *)

Lemma Validate_OSRelease (ic : ImageConfiguration) :
  returned (Validate ic) = None ->
  OSRelease (after (Validate ic)) = defaultOSRelease (OSRelease ic).
Proof.
  rewrite Validate_returned, Validate_run. intros ->.
  cbn. now rewrite specialized_OSRelease.
Qed.

(** C3 fails on the code for the pretty name.  [ID], [VersionID] and
    [HomeURL] are each written under a test of their own emptiness;
    [PrettyName] has no such test and is written under the test of
    [Name].  So a pretty name that is set is overwritten when the name
    is empty, and a pretty name that is empty is not defaulted when the
    name is set: on both inputs [Validate] succeeds and leaves an OS
    release other than the one field-by-field defaulting gives. *)
Theorem Validate_PrettyName_follows_Name :
  returned (Validate pretty_only) = None
  /\ PrettyName (OSRelease pretty_only) = "Custom Linux"
  /\ PrettyName (OSRelease (after (Validate pretty_only))) = "apko-generated image"
  /\ returned (Validate name_only) = None
  /\ PrettyName (OSRelease name_only) = ""
  /\ PrettyName (OSRelease (after (Validate name_only))) = ""
  /\ OSRelease (after (Validate pretty_only))
     <> defaultOSRelease_per_field (OSRelease pretty_only)
  /\ OSRelease (after (Validate name_only))
     <> defaultOSRelease_per_field (OSRelease name_only).
Proof.
  repeat split; discriminate.
Qed.

(** The four fields that are tested on their own, [ID], [Name],
    [VersionID] and [HomeURL], are defaulted as field-by-field
    defaulting does it: after a successful [Validate] each holds its
    fallback if it was empty and its old value otherwise. *)
Lemma Validate_defaults_own_fields (ic : ImageConfiguration) :
  returned (Validate ic) = None ->
  ID (OSRelease (after (Validate ic)))
    = ID (defaultOSRelease_per_field (OSRelease ic))
  /\ Name (OSRelease (after (Validate ic)))
    = Name (defaultOSRelease_per_field (OSRelease ic))
  /\ VersionID (OSRelease (after (Validate ic)))
    = VersionID (defaultOSRelease_per_field (OSRelease ic))
  /\ HomeURL (OSRelease (after (Validate ic)))
    = HomeURL (defaultOSRelease_per_field (OSRelease ic)).
Proof.
  intros Hok. rewrite (Validate_OSRelease ic Hok).
  destruct (OSRelease ic) as [i n p v h].
  unfold defaultOSRelease, defaultOSRelease_per_field, default_if_empty.
  by_emptiness; cbn; repeat split.
Qed.

Lemma defaultOSRelease_twice (o : OSRelease_t) :
  defaultOSRelease (defaultOSRelease o) = defaultOSRelease o.
Proof.
  destruct o as [i n p v h].
  unfold defaultOSRelease.
  by_emptiness; reflexivity.
Qed.

(** C4: the defaulting step of [Validate] is idempotent: run twice in a
    row on a configuration it leaves what one run leaves, and so for the
    OS release fields. *)
Theorem defaultOSRelease_idempotent (ic : ImageConfiguration) :
  apply_defaults (apply_defaults ic) = apply_defaults ic
  /\ OSRelease (apply_defaults (apply_defaults ic)) = OSRelease (apply_defaults ic)
  /\ defaultOSRelease (defaultOSRelease (OSRelease ic))
     = defaultOSRelease (OSRelease ic).
Proof.
  assert (H : apply_defaults (apply_defaults ic) = apply_defaults ic).
  { unfold apply_defaults, set_OSRelease. cbn.
    now rewrite defaultOSRelease_twice. }
  split; [exact H|]. split; [now rewrite H|].
  apply defaultOSRelease_twice.
Qed.

(** [Validate] does not look at the GID of a user. *)
Example Validate_user_gid_unchecked :
  returned (Validate (with_Users [User.mk "app" 1000 0] empty_configuration)) = None.
Proof. reflexivity. Qed.

(** ** The receiver after a failed validation *)

Lemma app_snoc_neq {A} (l : list A) (x : A) : l ++ [x] <> l.
Proof.
  intros H. apply (f_equal (@length A)) in H.
  rewrite length_app in H. cbn in H. lia.
Qed.

(** C10: when [Validate] returns an error, the OS release is as it was
    before the call; for a service bundle the command and the package
    list have been rewritten all the same, so the receiver differs from
    what it was; for any other entrypoint type the receiver is as it
    was. *)
Theorem Validate_not_atomic (ic : ImageConfiguration) (e : ConfigurationError) :
  returned (Validate ic) = Some e ->
  OSRelease (after (Validate ic)) = OSRelease ic
  /\ (Type_ (Entrypoint ic) = "service-bundle" ->
      Command (Entrypoint (after (Validate ic))) = "/bin/s6-svscan /sv"
      /\ Packages (Contents (after (Validate ic))) = Packages (Contents ic) ++ ["s6"]
      /\ after (Validate ic) <> ic)
  /\ (Type_ (Entrypoint ic) <> "service-bundle" -> after (Validate ic) = ic).
Proof.
  intros Herr. rewrite Validate_returned in Herr.
  rewrite Validate_run, Herr. cbn [after fst].
  split; [apply specialized_OSRelease|]. split.
  - intros Hty. rewrite (specialized_service_bundle ic Hty).
    repeat split. intros Heq.
    apply (f_equal (fun c => Packages (Contents c))) in Heq. cbn in Heq.
    exact (app_snoc_neq _ _ Heq).
  - apply specialized_other.
Qed.

Lemma Validate_not_atomic_witness :
  returned (Validate bundle_with_root) = Some (UserUIDZero root)
  /\ OSRelease (after (Validate bundle_with_root)) = OSRelease bundle_with_root
  /\ Command (Entrypoint (after (Validate bundle_with_root))) = "/bin/s6-svscan /sv"
  /\ Packages (Contents (after (Validate bundle_with_root))) = ["s6"; "busybox"; "s6"]
  /\ after (Validate bundle_with_root) <> bundle_with_root.
Proof.
  split; [reflexivity|].
  destruct (Validate_not_atomic bundle_with_root (UserUIDZero root) eq_refl)
    as (Hos & Hsb & _).
  destruct (Hsb eq_refl) as (Hc & Hp & Hne).
  repeat split; assumption.
Defined.

(** ** [strings.Replace] on the first colon *)

Lemma Replace_from_done (s old new : string) : Replace_from 0 s old new 0 = s.
Proof. now destruct s. Qed.

Lemma prefix_colon (c : ascii) (s : string) :
  prefix ":" (String c s) = Ascii.eqb c ":"%char.
Proof.
  cbn [prefix]. destruct (ascii_dec ":"%char c) as [<-|Hne].
  - rewrite Ascii.eqb_refl. now destruct s.
  - symmetry. apply Ascii.eqb_neq. congruence.
Qed.

(** With no colon in [a], the one replacement in [a:b] hits the colon
    that separates them. *)
Lemma Replace_first_colon (a b : string) :
  no_colon a = true ->
  strings_Replace (a +++ ":" +++ b) ":" "/" 1 = a +++ "/" +++ b.
Proof.
  unfold strings_Replace.
  induction a as [|c a IH]; intros Ha.
  - change (EmptyString +++ ":" +++ b) with (String ":"%char b).
    cbn [Replace_from]. rewrite prefix_colon, Ascii.eqb_refl.
    cbn [String.length Nat.sub]. now rewrite Replace_from_done.
  - cbn [no_colon] in Ha. apply andb_prop in Ha as [Hc Ha].
    apply negb_true_iff in Hc.
    change ((String c a) +++ ":" +++ b) with (String c (a +++ ":" +++ b)).
    cbn [Replace_from]. rewrite prefix_colon, Hc.
    cbn [String.append]. f_equal. now apply IH.
Qed.

(** Without a colon nothing is replaced. *)
Lemma Replace_no_colon (s : string) :
  no_colon s = true -> strings_Replace s ":" "/" 1 = s.
Proof.
  unfold strings_Replace.
  induction s as [|c s IH]; intros Hs; [reflexivity|].
  cbn [no_colon] in Hs. apply andb_prop in Hs as [Hc Hs].
  apply negb_true_iff in Hc.
  cbn [Replace_from]. rewrite prefix_colon, Hc. f_equal. now apply IH.
Qed.

(** ** [ProbeVCSUrl]: the failures that are logged *)

Section Probe.
Variable W : VCSWorld.
Variables (imageConfigPath : string) (ic : ImageConfiguration).

Lemma ProbeVCSUrl_no_parent :
  filepath_Dir W imageConfigPath = "" ->
  ProbeVCSUrl W imageConfigPath ic = Returns (ic, []).
Proof. unfold ProbeVCSUrl. now intros ->. Qed.

Lemma ProbeVCSUrl_no_repository (err : goerror) :
  git_PlainOpen W (filepath_Dir W imageConfigPath) = Err err ->
  exists log, ProbeVCSUrl W imageConfigPath ic = Returns (ic, log).
Proof.
  unfold ProbeVCSUrl. intros ->. destruct (_ =? _); eauto.
Qed.

Lemma ProbeVCSUrl_no_origin (repo : Repository W) (err : goerror) :
  git_PlainOpen W (filepath_Dir W imageConfigPath) = Ok repo ->
  Repository_Remote W repo "origin" = Err err ->
  exists log, ProbeVCSUrl W imageConfigPath ic = Returns (ic, log).
Proof.
  unfold ProbeVCSUrl. intros -> ->. destruct (_ =? _); eauto.
Qed.

(** The call returns whenever the remote found has a URL, and then the
    configuration is untouched or differs in [VCSUrl] alone. *)
Lemma ProbeVCSUrl_returns_with_url :
  (forall repo remote,
      git_PlainOpen W (filepath_Dir W imageConfigPath) = Ok repo ->
      Repository_Remote W repo "origin" = Ok remote ->
      URLs (Remote_Config W remote) <> []) ->
  exists ic' log,
    ProbeVCSUrl W imageConfigPath ic = Returns (ic', log)
    /\ (ic' = ic \/ exists u, ic' = set_VCSUrl (URL_String W u) ic).
Proof.
  intros Hurl. unfold ProbeVCSUrl, store_VCSUrl.
  destruct (_ =? _); [eauto|].
  destruct (git_PlainOpen W _) as [repo|err] eqn:Hopen; [|eauto].
  destruct (Repository_Remote W repo "origin") as [remote|err] eqn:Hrem; [|eauto].
  specialize (Hurl repo remote eq_refl Hrem).
  destruct (URLs (Remote_Config W remote)) as [|remoteURL rest]; [contradiction|].
  destruct (url_Parse W remoteURL) as [u|err]; [eauto 6|].
  destruct (url_Parse W _) as [u|err']; eauto 6.
Qed.

(** The call panics exactly when the repository opens and its [origin]
    remote names no URL. *)
Lemma ProbeVCSUrl_panics_iff (msg : string) :
  ProbeVCSUrl W imageConfigPath ic = Panics msg <->
  filepath_Dir W imageConfigPath <> ""
  /\ msg = "runtime error: index out of range [0] with length 0"
  /\ exists repo remote,
      git_PlainOpen W (filepath_Dir W imageConfigPath) = Ok repo
      /\ Repository_Remote W repo "origin" = Ok remote
      /\ URLs (Remote_Config W remote) = [].
Proof.
  unfold ProbeVCSUrl. split.
  - destruct (_ =? _) eqn:Hdir; [discriminate|].
    apply String.eqb_neq in Hdir.
    destruct (git_PlainOpen W _) as [repo|err]; [|discriminate].
    destruct (Repository_Remote W repo "origin") as [remote|err] eqn:Hrem;
      [|discriminate].
    destruct (URLs (Remote_Config W remote)) as [|remoteURL rest] eqn:Hurls.
    + intros [= <-]. repeat split; eauto.
    + destruct (url_Parse W remoteURL); [discriminate|].
      destruct (url_Parse W _); discriminate.
  - intros (Hdir & -> & repo & remote & Hopen & Hrem & Hurls).
    apply String.eqb_neq in Hdir. now rewrite Hdir, Hopen, Hrem, Hurls.
Qed.

End Probe.

(** C5 fails on the code at a checkout whose [origin] section names no
    URL: the repository opens, the remote is found, and indexing
    [remoteConfig.URLs[0]] on the empty list panics, so the call does
    not return. *)
Theorem ProbeVCSUrl_panics_without_url :
  git_PlainOpen origin_without_url
    (filepath_Dir origin_without_url "/src/app/apko.yaml") = Ok tt
  /\ Repository_Remote origin_without_url tt "origin" = Ok tt
  /\ URLs (Remote_Config origin_without_url tt) = []
  /\ ProbeVCSUrl origin_without_url "/src/app/apko.yaml" empty_configuration
     = Panics "runtime error: index out of range [0] with length 0".
Proof. repeat split. Qed.

(** Where no repository encloses the path the call returns and the
    configuration is as it was. *)
Example ProbeVCSUrl_outside_repository :
  ProbeVCSUrl no_repository "/tmp/apko.yaml" empty_configuration
  = Returns (empty_configuration,
             [ "unable to determine git vcs url: repository does not exist" ]).
Proof. reflexivity. Qed.

(** C6: when parsing the URL of [origin] fails, the URL with its first
    colon replaced by a slash and [git+ssh://] put in front is parsed
    instead, and what that parse yields is stored; for [a:b] with no
    colon in [a] the string parsed is [git+ssh://a/b]; for
    [git@host:org/repo.git] it is [git+ssh://git@host/org/repo.git],
    which is what [VCSUrl] holds afterwards when the parsed URL prints
    back as written. *)
Theorem ProbeVCSUrl_ssh_shorthand
    (W : VCSWorld) (imageConfigPath : string) (ic : ImageConfiguration)
    (repo : Repository W) (remote : Remote W)
    (remoteURL : string) (rest : list string) (cause : goerror) :
  filepath_Dir W imageConfigPath <> "" ->
  git_PlainOpen W (filepath_Dir W imageConfigPath) = Ok repo ->
  Repository_Remote W repo "origin" = Ok remote ->
  URLs (Remote_Config W remote) = remoteURL :: rest ->
  url_Parse W remoteURL = Err cause ->
  ProbeVCSUrl W imageConfigPath ic
  = match url_Parse W ("git+ssh://" +++ strings_Replace remoteURL ":" "/" 1) with
    | Ok u =>
        Returns (set_VCSUrl (URL_String W u) ic,
                 [ "detected " +++ URL_String W u +++ " as VCS URL" ])
    | Err err =>
        Returns (ic, [ "unable to parse "
                         +++ ("git+ssh://" +++ strings_Replace remoteURL ":" "/" 1)
                         +++ " as a git vcs url: " +++ err ])
    end
  /\ (forall a b : string,
         remoteURL = a +++ ":" +++ b -> no_colon a = true ->
         "git+ssh://" +++ strings_Replace remoteURL ":" "/" 1
         = "git+ssh://" +++ a +++ "/" +++ b)
  /\ (remoteURL = "git@host:org/repo.git" ->
      forall u : URL W,
        url_Parse W "git+ssh://git@host/org/repo.git" = Ok u ->
        URL_String W u = "git+ssh://git@host/org/repo.git" ->
        exists ic' log,
          ProbeVCSUrl W imageConfigPath ic = Returns (ic', log)
          /\ ic' = set_VCSUrl "git+ssh://git@host/org/repo.git" ic
          /\ VCSUrl ic' = "git+ssh://git@host/org/repo.git").
Proof.
  intros Hdir Hopen Hrem Hurls Hparse.
  assert (Hrun :
    ProbeVCSUrl W imageConfigPath ic
    = match url_Parse W ("git+ssh://" +++ strings_Replace remoteURL ":" "/" 1) with
      | Ok u =>
          Returns (set_VCSUrl (URL_String W u) ic,
                   [ "detected " +++ URL_String W u +++ " as VCS URL" ])
      | Err err =>
          Returns (ic, [ "unable to parse "
                           +++ ("git+ssh://" +++ strings_Replace remoteURL ":" "/" 1)
                           +++ " as a git vcs url: " +++ err ])
      end).
  { unfold ProbeVCSUrl. apply String.eqb_neq in Hdir.
    rewrite Hdir, Hopen, Hrem, Hurls, Hparse.
    destruct (url_Parse W _); reflexivity. }
  split; [exact Hrun|]. split.
  - intros a b -> Ha. now rewrite (Replace_first_colon a b Ha).
  - intros -> u Hu Hstr. rewrite Hrun.
    change ("git+ssh://" +++ strings_Replace "git@host:org/repo.git" ":" "/" 1)
      with "git+ssh://git@host/org/repo.git".
    rewrite Hu, Hstr. eauto.
Qed.

Lemma ProbeVCSUrl_ssh_shorthand_witness :
  ProbeVCSUrl ssh_origin "/src/app/apko.yaml" empty_configuration
  = Returns (set_VCSUrl "git+ssh://git@host/org/repo.git" empty_configuration,
             [ "detected git+ssh://git@host/org/repo.git as VCS URL" ]).
Proof.
  exact (proj1 (ProbeVCSUrl_ssh_shorthand ssh_origin "/src/app/apko.yaml"
                  empty_configuration tt tt "git@host:org/repo.git" []
                  "first path segment in URL cannot contain colon"
                  ltac:(discriminate) eq_refl eq_refl eq_refl eq_refl)).
Defined.

(** ** [GenerateSBOM] *)

(** C7: with no format requested [GenerateSBOM] logs that it skips and
    returns [nil]; no stage of the pipeline is entered and no SBOM value
    is made. *)
Theorem GenerateSBOM_no_formats (W : SBOMWorld) (bc : Context) :
  SBOMFormats bc = [] ->
  GenerateSBOM W bc = ([Logged "skipping SBOM generation"], Ok tt)
  /\ sbom_returned (GenerateSBOM W bc) = None
  /\ stages_run (GenerateSBOM W bc) = [].
Proof.
  intros Hnone. unfold GenerateSBOM. rewrite Hnone. repeat split.
Qed.

Lemma GenerateSBOM_no_formats_witness :
  GenerateSBOM (staged_world false false false false false) context_without_formats
  = ([Logged "skipping SBOM generation"], Ok tt).
Proof.
  exact (proj1 (GenerateSBOM_no_formats
                  (staged_world false false false false false)
                  context_without_formats eq_refl)).
Defined.

(** With a format requested, the stages are entered in the order of the
    pipeline; a run that fails stops at the stage its error names, and a
    run that succeeds has gone through all of them. *)
Lemma GenerateSBOM_stage_order (W : SBOMWorld) (bc : Context) :
  SBOMFormats bc <> [] ->
  match sbom_returned (GenerateSBOM W bc) with
  | Some e =>
      In (error_stage e) (pipeline bc)
      /\ stages_run (GenerateSBOM W bc) = upto (error_stage e) (pipeline bc)
  | None => stages_run (GenerateSBOM W bc) = pipeline bc
  end.
Proof.
  intros Hsome. unfold GenerateSBOM, pipeline, sbom_returned, stages_run.
  destruct (SBOMFormats bc) as [|f fs]; [contradiction|].
  unfold run, new_sbom, log_Printf. cbn.
  call_of v1tar_LayerFromFile tauto.
  call_of Layer_Digest tauto.
  destruct (Tags bc) as [|tag0 rest]; cbn.
  - call_of SBOM_ReadPackageIndex tauto.
    call_of SBOM_Generate tauto. reflexivity.
  - call_of name_NewTag tauto.
    call_of SBOM_ReadPackageIndex tauto.
    call_of SBOM_Generate tauto. reflexivity.
Qed.

(** C8, as stated, fails: with a format requested and a first tag that
    does not parse, a tarball that cannot be read makes [GenerateSBOM]
    return the layer-read error, not a tag-parse error. *)
Lemma GenerateSBOM_bad_tag_behind_bad_layer :
  SBOMFormats context_with_bad_tag <> []
  /\ Tags context_with_bad_tag = ["App:Not A Tag"]
  /\ name_NewTag (staged_world false true false true true) "App:Not A Tag"
     = Err "could not parse reference"
  /\ sbom_returned
       (GenerateSBOM (staged_world false true false true true) context_with_bad_tag)
     = Some (LayerReadError "open: no such file or directory")
  /\ error_stage (LayerReadError "open: no such file or directory") <> TagParse.
Proof. repeat split; discriminate. Qed.

(** C8, amended: with a format requested, the stages are entered in the
    order layer read, digest, tag parse (when a tag is configured),
    package-index read, generation.  The first call that fails ends the
    run there, and the error returned is the one of that stage, wrapping
    the cause: a layer-read error, a digest error, a tag-parse error for
    the first tag, a package-index error or a generation error; when no
    call fails the run goes through the whole pipeline and returns
    [nil].  When the first configured tag does not parse, the run never
    enters the package-index read or the generation, and the error is
    the layer-read error if the layer read fails, else the digest error
    if the digest fails, else the tag-parse error for that tag. *)
Theorem GenerateSBOM_fail_fast (W : SBOMWorld) (bc : Context) :
  SBOMFormats bc <> [] ->
  match sbom_returned (GenerateSBOM W bc) with
  | Some e =>
      In (error_stage e) (pipeline bc)
      /\ stages_run (GenerateSBOM W bc) = upto (error_stage e) (pipeline bc)
  | None => stages_run (GenerateSBOM W bc) = pipeline bc
  end
  /\ (forall cause : goerror,
         v1tar_LayerFromFile W (TarballPath bc) = Err cause ->
         GenerateSBOM W bc
         = (trace_of bc [LayerRead], Err (LayerReadError cause)))
  /\ (forall (layer : Layer W) (cause : goerror),
         v1tar_LayerFromFile W (TarballPath bc) = Ok layer ->
         Layer_Digest W layer = Err cause ->
         GenerateSBOM W bc
         = (trace_of bc [LayerRead; DigestStage], Err (DigestError cause)))
  /\ (forall (layer : Layer W) (digest : Hash W)
             (tag0 : string) (rest : list string) (cause : goerror),
         v1tar_LayerFromFile W (TarballPath bc) = Ok layer ->
         Layer_Digest W layer = Ok digest ->
         Tags bc = tag0 :: rest ->
         name_NewTag W tag0 = Err cause ->
         GenerateSBOM W bc
         = (trace_of bc [LayerRead; DigestStage; TagParse],
            Err (TagParseError tag0 cause)))
  /\ (forall (layer : Layer W) (digest : Hash W)
             (s : sbom.SBOM (Package W)) (cause : goerror),
         v1tar_LayerFromFile W (TarballPath bc) = Ok layer ->
         Layer_Digest W layer = Ok digest ->
         identified W bc s ->
         SBOM_ReadPackageIndex W s = Err cause ->
         GenerateSBOM W bc
         = (trace_of bc (upto PackageIndexRead (pipeline bc)),
            Err (PackageIndexError cause)))
  /\ (forall (layer : Layer W) (digest : Hash W)
             (s : sbom.SBOM (Package W)) (packages : list (Package W)),
         v1tar_LayerFromFile W (TarballPath bc) = Ok layer ->
         Layer_Digest W layer = Ok digest ->
         identified W bc s ->
         SBOM_ReadPackageIndex W s = Ok packages ->
         GenerateSBOM W bc
         = (trace_of bc (pipeline bc),
            match SBOM_Generate W (assembled W bc digest packages s) with
            | Ok _ => Ok tt
            | Err cause => Err (SBOMGenerationError cause)
            end))
  /\ (forall (tag0 : string) (rest : list string) (cause : goerror),
         Tags bc = tag0 :: rest ->
         name_NewTag W tag0 = Err cause ->
         sbom_returned (GenerateSBOM W bc)
         = Some match v1tar_LayerFromFile W (TarballPath bc) with
                | Err c => LayerReadError c
                | Ok layer =>
                    match Layer_Digest W layer with
                    | Err c => DigestError c
                    | Ok _ => TagParseError tag0 cause
                    end
                end
         /\ ~ In PackageIndexRead (stages_run (GenerateSBOM W bc))
         /\ ~ In Generation (stages_run (GenerateSBOM W bc))).
Proof.
  intros Hsome. split; [now apply GenerateSBOM_stage_order|].
  unfold GenerateSBOM, sbom_returned, stages_run, trace_of, pipeline,
         identified, assembled.
  destruct (SBOMFormats bc) as [|f fs] eqn:Hformats; [contradiction|].
  unfold run, new_sbom, log_Printf. cbn.
  split; [|split; [|split; [|split; [|split]]]].
  - intros cause ->. reflexivity.
  - intros layer cause -> ->. reflexivity.
  - intros layer digest tag0 rest cause -> -> -> ->. reflexivity.
  - intros layer digest s cause -> ->.
    destruct (Tags bc) as [|tag0 rest].
    + intros -> ->. reflexivity.
    + intros (tag & -> & ->) ->. reflexivity.
  - intros layer digest s packages -> ->.
    destruct (Tags bc) as [|tag0 rest].
    + intros -> ->. cbn. destruct (SBOM_Generate W _); reflexivity.
    + intros (tag & -> & ->) ->. cbn. destruct (SBOM_Generate W _); reflexivity.
  - intros tag0 rest cause -> ->.
    destruct (v1tar_LayerFromFile W (TarballPath bc)) as [layer|c]; cbn.
    + destruct (Layer_Digest W layer) as [digest|c]; cbn.
      * split; [reflexivity|].
        split; intros [H|[H|[H|[]]]]; discriminate.
      * split; [reflexivity|].
        split; intros [H|[H|[]]]; discriminate.
    + split; [reflexivity|].
      split; intros [H|[]]; discriminate.
Qed.

Lemma GenerateSBOM_fail_fast_witness :
  GenerateSBOM (staged_world true true false true true) context_with_bad_tag
  = ([Logged "generating SBOM"; NewSBOM "/work";
      Ran LayerRead; Ran DigestStage; Ran TagParse],
     Err (TagParseError "App:Not A Tag" "could not parse reference"))
  /\ GenerateSBOM (staged_world true false false true true) context_with_bad_tag
     = ([Logged "generating SBOM"; NewSBOM "/work"; Ran LayerRead; Ran DigestStage],
        Err (DigestError "unexpected EOF"))
  /\ GenerateSBOM (staged_world true true true false true) context_with_tag
     = ([Logged "generating SBOM"; NewSBOM "/work";
         Ran LayerRead; Ran DigestStage; Ran TagParse; Ran PackageIndexRead],
        Err (PackageIndexError "installed: no such file"))
  /\ GenerateSBOM (staged_world true true true true false) context_with_tag
     = ([Logged "generating SBOM"; NewSBOM "/work";
         Ran LayerRead; Ran DigestStage; Ran TagParse; Ran PackageIndexRead;
         Ran Generation],
        Err (SBOMGenerationError "write failed")).
Proof.
  split; [|split; [|split]].
  - destruct (GenerateSBOM_fail_fast (staged_world true true false true true)
                context_with_bad_tag ltac:(discriminate))
      as (_ & _ & _ & Htag & _).
    exact (Htag tt tt "App:Not A Tag" [] "could not parse reference"
             eq_refl eq_refl eq_refl eq_refl).
  - destruct (GenerateSBOM_fail_fast (staged_world true false false true true)
                context_with_bad_tag ltac:(discriminate))
      as (_ & _ & Hdigest & _).
    exact (Hdigest tt "unexpected EOF" eq_refl eq_refl).
  - destruct (GenerateSBOM_fail_fast (staged_world true true true false true)
                context_with_tag ltac:(discriminate))
      as (_ & _ & _ & _ & Hindex & _).
    refine (Hindex tt tt _ "installed: no such file" eq_refl eq_refl _ eq_refl).
    exists tt. split; reflexivity.
  - destruct (GenerateSBOM_fail_fast (staged_world true true true true false)
                context_with_tag ltac:(discriminate))
      as (_ & _ & _ & _ & _ & Hgen & _).
    refine (Hgen tt tt _ ["busybox"] eq_refl eq_refl _ eq_refl).
    exists tt. split; reflexivity.
Defined.

(** ** [Summarize] *)

Lemma prints_In (block out : list string) (l : string) :
  prints block out -> In l block -> In l out.
Proof.
  intros (before & rest & ->) Hl.
  apply in_or_app. right. apply in_or_app. now left.
Qed.

Lemma entrypoint_guard_spec (ic : ImageConfiguration) :
  entrypoint_guard ic = true <->
  Type_ (Entrypoint ic) <> ""
  \/ Command (Entrypoint ic) <> ""
  \/ Services (Entrypoint ic) <> [].
Proof.
  unfold entrypoint_guard.
  rewrite !orb_true_iff, !negb_true_iff, !String.eqb_neq.
  destruct (Services (Entrypoint ic)); cbn; intuition congruence.
Qed.

Lemma accounts_guard_spec (ic : ImageConfiguration) :
  accounts_guard ic = true <->
  RunAs (Accounts ic) <> ""
  \/ Users (Accounts ic) <> []
  \/ Groups (Accounts ic) <> [].
Proof.
  unfold accounts_guard.
  rewrite !orb_true_iff, !negb_true_iff, !String.eqb_neq.
  destruct (Users (Accounts ic)), (Groups (Accounts ic)); cbn;
    intuition congruence.
Qed.

(** The contents block is always printed, right after the title. *)
Lemma Summarize_prints_contents (ic : ImageConfiguration) :
  prints (contents_block ic) (Summarize ic).
Proof.
  exists ["image configuration:"]. eexists. unfold Summarize. reflexivity.
Qed.

(** The entrypoint block is printed exactly when the type, the command
    or the services are set; the shell fragment has no say. *)
Lemma Summarize_entrypoint_iff (ic : ImageConfiguration) :
  prints (entrypoint_block ic) (Summarize ic) <-> entrypoint_guard ic = true.
Proof.
  split.
  - intros Hp.
    assert (Hin : In entrypoint_heading (Summarize ic)).
    { apply (prints_In _ _ _ Hp). now left. }
    unfold Summarize in Hin.
    destruct (entrypoint_guard ic); [reflexivity|].
    destruct (negb (Cmd ic =? "")), (accounts_guard ic);
      unfold contents_block, accounts_block, user_line, group_line in Hin;
      lines Hin.
  - intros Hg. unfold Summarize. rewrite Hg.
    exists (["image configuration:"] ++ contents_block ic). eexists.
    rewrite <- app_assoc. reflexivity.
Qed.

(** The accounts block is printed exactly when the run-as identity, the
    users or the groups are set. *)
Lemma Summarize_accounts_iff (ic : ImageConfiguration) :
  prints (accounts_block ic) (Summarize ic) <-> accounts_guard ic = true.
Proof.
  split.
  - intros Hp.
    assert (Hin : In accounts_heading (Summarize ic)).
    { apply (prints_In _ _ _ Hp). now left. }
    unfold Summarize in Hin.
    destruct (accounts_guard ic); [reflexivity|].
    destruct (negb (Cmd ic =? "")), (entrypoint_guard ic);
      unfold contents_block, entrypoint_block in Hin;
      lines Hin.
  - intros Hg. unfold Summarize. rewrite Hg.
    exists (["image configuration:"] ++ contents_block ic
              ++ (if entrypoint_guard ic then entrypoint_block ic else [])
              ++ (if negb (Cmd ic =? "") then ["  cmd: " +++ Cmd ic] else [])).
    exists []. rewrite app_nil_r, <- !app_assoc. reflexivity.
Qed.

(** C9 fails on the code for the shell fragment: a configuration whose
    only entrypoint setting is its shell fragment is summarized without
    the entrypoint block, so the fragment is not shown.  The contents
    block is printed, and the guard of the entrypoint block is false
    although a field of the block is set. *)
Theorem Summarize_shell_fragment_only :
  ShellFragment (Entrypoint shell_fragment_only) <> ""
  /\ entrypoint_guard shell_fragment_only = false
  /\ Summarize shell_fragment_only
     = [ "image configuration:";
         "  contents:";
         "    repositories: []";
         "    keyring:      []";
         "    packages:     []" ]
  /\ ~ prints (entrypoint_block shell_fragment_only) (Summarize shell_fragment_only)
  /\ prints (contents_block shell_fragment_only) (Summarize shell_fragment_only).
Proof.
  split; [discriminate|]. split; [reflexivity|]. split; [reflexivity|]. split.
  - rewrite Summarize_entrypoint_iff. discriminate.
  - apply Summarize_prints_contents.
Qed.

(** The end-to-end example: one valid user validates and is summarized
    with one user line. *)
Example one_user_end_to_end :
  returned (Validate one_user) = None
  /\ Summarize (after (Validate one_user))
     = [ "image configuration:";
         "  contents:";
         "    repositories: []";
         "    keyring:      []";
         "    packages:     []";
         "  accounts:";
         "    runas:  ";
         "    users:";
         "      - uid=1000(app) gid=1000";
         "    groups:" ].
Proof. split; reflexivity. Qed.

(** * Further properties *)

(** ** [Validate]: when it succeeds and what it reports *)

Lemma user_invalid_false (u : User.t) : user_invalid u = false <-> user_ok u.
Proof.
  unfold user_invalid, user_ok.
  rewrite orb_false_iff, String.eqb_neq, N.eqb_neq. reflexivity.
Qed.

Lemma group_invalid_false (g : Group.t) : group_invalid g = false <-> group_ok g.
Proof.
  unfold group_invalid, group_ok.
  rewrite orb_false_iff, String.eqb_neq, N.eqb_neq. reflexivity.
Qed.

Lemma find_none_Forall {A} (p : A -> bool) (l : list A) :
  find p l = None <-> Forall (fun x => p x = false) l.
Proof.
  induction l as [|x l IH]; cbn.
  - split; [constructor | reflexivity].
  - destruct (p x) eqn:Hx.
    + split; [discriminate|]. intros H. inversion H; congruence.
    + rewrite IH. split.
      * now constructor.
      * intros H. now inversion H.
Qed.

Lemma users_all_ok (us : list User.t) :
  find user_invalid us = None <-> Forall user_ok us.
Proof.
  rewrite find_none_Forall, !Forall_forall.
  split; intros H u Hin; apply user_invalid_false; auto.
Qed.

Lemma groups_all_ok (gs : list Group.t) :
  find group_invalid gs = None <-> Forall group_ok gs.
Proof.
  rewrite find_none_Forall, !Forall_forall.
  split; intros H g Hin; apply group_invalid_false; auto.
Qed.

(** X1: [Validate] returns [nil] exactly when every declared user has a
    name and a UID other than 0 and every declared group has a name and
    a GID other than 0; nothing else in the configuration can make it
    fail. *)
Theorem Validate_succeeds_iff (ic : ImageConfiguration) :
  returned (Validate ic) = None <->
  Forall user_ok (Users (Accounts ic)) /\ Forall group_ok (Groups (Accounts ic)).
Proof.
  rewrite Validate_returned. unfold first_violation.
  rewrite <- users_all_ok, <- groups_all_ok.
  destruct (find user_invalid _) as [u|]; [intuition discriminate|].
  destruct (find group_invalid _) as [g|]; intuition discriminate.
Qed.

(** X2: the error [Validate] returns is about an entity that is declared
    and that has the defect the message names: a user error names a
    declared user, with [UID 0] only reported for a user that has a
    name; a group error is returned only when all users are valid and
    names a declared group, with [GID 0] only reported for a group that
    has a name. *)
Theorem Validate_error_sound (ic : ImageConfiguration) (e : ConfigurationError) :
  returned (Validate ic) = Some e ->
  match e with
  | UserNoName u =>
      In u (Users (Accounts ic)) /\ User.UserName u = ""
  | UserUIDZero u =>
      In u (Users (Accounts ic)) /\ User.UserName u <> "" /\ User.UID u = 0%N
  | GroupNoName g =>
      Forall user_ok (Users (Accounts ic))
      /\ In g (Groups (Accounts ic)) /\ Group.GroupName g = ""
  | GroupGIDZero g =>
      Forall user_ok (Users (Accounts ic))
      /\ In g (Groups (Accounts ic))
      /\ Group.GroupName g <> "" /\ Group.GID g = 0%N
  end.
Proof.
  rewrite Validate_returned. unfold first_violation.
  destruct (find user_invalid _) as [u|] eqn:Hu.
  - intros [= <-]. apply find_some in Hu as [Hin Hbad].
    unfold user_error, user_invalid in *.
    destruct (User.UserName u =? "") eqn:Hname.
    + apply String.eqb_eq in Hname. now split.
    + apply String.eqb_neq in Hname. cbn in Hbad.
      apply N.eqb_eq in Hbad. now repeat split.
  - apply users_all_ok in Hu.
    destruct (find group_invalid _) as [g|] eqn:Hg; [|discriminate].
    intros [= <-]. apply find_some in Hg as [Hin Hbad].
    unfold group_error, group_invalid in *.
    destruct (Group.GroupName g =? "") eqn:Hname.
    + apply String.eqb_eq in Hname. now repeat split.
    + apply String.eqb_neq in Hname. cbn in Hbad.
      apply N.eqb_eq in Hbad. now repeat split.
Qed.

Lemma Validate_error_sound_witness :
  Forall user_ok (Users (Accounts (with_Groups [wheel] one_user)))
  /\ In wheel (Groups (Accounts (with_Groups [wheel] one_user)))
  /\ Group.GroupName wheel <> "" /\ Group.GID wheel = 0%N.
Proof.
  exact (Validate_error_sound (with_Groups [wheel] one_user)
           (GroupGIDZero wheel) eq_refl).
Defined.

(** X3: [Validate] writes to the entrypoint command, the package list
    and the OS release only: repositories, keyring, entrypoint type,
    services and shell fragment, [Cmd], accounts and [VCSUrl] are after
    the call what they were before, whether it fails or not; and the
    packages declared before are still there, in front and in order. *)
Theorem Validate_frame (ic : ImageConfiguration) :
  Repositories (Contents (after (Validate ic))) = Repositories (Contents ic)
  /\ Keyring (Contents (after (Validate ic))) = Keyring (Contents ic)
  /\ Type_ (Entrypoint (after (Validate ic))) = Type_ (Entrypoint ic)
  /\ Services (Entrypoint (after (Validate ic))) = Services (Entrypoint ic)
  /\ ShellFragment (Entrypoint (after (Validate ic))) = ShellFragment (Entrypoint ic)
  /\ Cmd (after (Validate ic)) = Cmd ic
  /\ Accounts (after (Validate ic)) = Accounts ic
  /\ VCSUrl (after (Validate ic)) = VCSUrl ic
  /\ exists added, Packages (Contents (after (Validate ic)))
                   = Packages (Contents ic) ++ added.
Proof.
  rewrite Validate_run. unfold specialized.
  destruct (first_violation ic), (Type_ (Entrypoint ic) =? "service-bundle");
    cbn; repeat split;
    solve [ exists ["s6"]; reflexivity
          | exists []; now rewrite app_nil_r ].
Qed.

(** X4: after a successful [Validate] the fields [ID], [Name],
    [VersionID] and [HomeURL] of the OS release are all non-empty, while
    [PrettyName] is empty exactly when it was empty and [Name] was
    not. *)
Theorem Validate_OSRelease_filled (ic : ImageConfiguration) :
  returned (Validate ic) = None ->
  ID (OSRelease (after (Validate ic))) <> ""
  /\ Name (OSRelease (after (Validate ic))) <> ""
  /\ VersionID (OSRelease (after (Validate ic))) <> ""
  /\ HomeURL (OSRelease (after (Validate ic))) <> ""
  /\ (PrettyName (OSRelease (after (Validate ic))) = "" <->
      PrettyName (OSRelease ic) = "" /\ Name (OSRelease ic) <> "").
Proof.
  intros Hok. rewrite (Validate_OSRelease ic Hok).
  destruct (OSRelease ic) as [i n p v h].
  unfold defaultOSRelease.
  by_emptiness; cbn;
    repeat match goal with
           | H : String.eqb _ _ = true |- _ => apply String.eqb_eq in H
           | H : String.eqb _ _ = false |- _ => apply String.eqb_neq in H
           end;
    subst; repeat split; try discriminate; try assumption;
    intuition (try discriminate; try congruence).
Qed.

Lemma Validate_OSRelease_filled_witness :
  Name (OSRelease (after (Validate name_only))) <> ""
  /\ PrettyName (OSRelease (after (Validate name_only))) = "".
Proof.
  destruct (Validate_OSRelease_filled name_only eq_refl)
    as (_ & Hn & _ & _ & Hp).
  split; [exact Hn|]. apply Hp. split; [reflexivity | discriminate].
Defined.

(** ** [Validate] run again *)

Lemma first_violation_after (ic : ImageConfiguration) :
  first_violation (after (Validate ic)) = first_violation ic.
Proof.
  unfold first_violation at 1.
  destruct (Validate_frame ic) as (_ & _ & _ & _ & _ & _ & Hacc & _).
  now rewrite Hacc.
Qed.

(** X5: a second [Validate] gives the verdict of the first, and leaves
    the OS release as the first left it; on a configuration that is not
    a service bundle it changes nothing at all, so there [Validate] is
    idempotent. *)
Theorem Validate_again (ic : ImageConfiguration) :
  returned (Validate (after (Validate ic))) = returned (Validate ic)
  /\ OSRelease (after (Validate (after (Validate ic))))
     = OSRelease (after (Validate ic))
  /\ (Type_ (Entrypoint ic) <> "service-bundle" ->
      Validate (after (Validate ic)) = (after (Validate ic), snd (Validate ic))).
Proof.
  split; [now rewrite !Validate_returned, first_violation_after|].
  assert (Hty : Type_ (Entrypoint (after (Validate ic))) = Type_ (Entrypoint ic))
    by apply Validate_frame.
  split.
  - rewrite (Validate_run (after (Validate ic))), first_violation_after.
    rewrite (Validate_run ic).
    destruct (first_violation ic); cbn [after fst].
    + now rewrite !specialized_OSRelease.
    + unfold apply_defaults at 1. cbn [OSRelease set_OSRelease].
      rewrite specialized_OSRelease. unfold apply_defaults at 1.
      cbn [OSRelease set_OSRelease]. apply defaultOSRelease_twice.
  - intros Hnb.
    rewrite (Validate_run (after (Validate ic))), first_violation_after.
    rewrite (specialized_other _ ltac:(now rewrite Hty)).
    rewrite (Validate_run ic), (specialized_other ic Hnb).
    destruct (first_violation ic); cbn [after fst snd]; [reflexivity|].
    f_equal. unfold apply_defaults, set_OSRelease. cbn.
    now rewrite defaultOSRelease_twice.
Qed.

Lemma Validate_again_witness :
  Validate (after (Validate one_user)) = (after (Validate one_user), Ok tt).
Proof.
  exact (proj2 (proj2 (Validate_again one_user)) ltac:(discriminate)).
Defined.

(** X6: on a service bundle every [Validate] appends [s6] once more and
    sets the same command: after two calls the package list is the
    original one followed by two [s6], whether the calls succeed or
    not. *)
Theorem Validate_again_service_bundle (ic : ImageConfiguration) :
  Type_ (Entrypoint ic) = "service-bundle" ->
  Packages (Contents (after (Validate (after (Validate ic)))))
  = Packages (Contents ic) ++ ["s6"; "s6"]
  /\ Command (Entrypoint (after (Validate (after (Validate ic)))))
     = "/bin/s6-svscan /sv".
Proof.
  intros Hty.
  assert (Hty' : Type_ (Entrypoint (after (Validate ic))) = "service-bundle").
  { destruct (Validate_frame ic) as (_ & _ & H & _). now rewrite H. }
  rewrite (Validate_run (after (Validate ic))), first_violation_after.
  rewrite (specialized_service_bundle _ Hty').
  rewrite (Validate_run ic), (specialized_service_bundle ic Hty).
  destruct (first_violation ic); cbn; now rewrite <- app_assoc.
Qed.

Lemma Validate_again_service_bundle_witness :
  Packages (Contents (after (Validate (after (Validate bundle_with_s6)))))
  = ["s6"; "busybox"; "s6"; "s6"].
Proof.
  exact (proj1 (Validate_again_service_bundle bundle_with_s6 eq_refl)).
Defined.

(** ** [Summarize]: which lines are printed *)

(** X7: the summary always prints the contents block; it prints the
    entrypoint block exactly when the entrypoint type, the command or
    the services are set, and the accounts block exactly when the run-as
    identity, the users or the groups are set. *)
Theorem Summarize_blocks (ic : ImageConfiguration) :
  prints (contents_block ic) (Summarize ic)
  /\ (prints (entrypoint_block ic) (Summarize ic) <->
      Type_ (Entrypoint ic) <> ""
      \/ Command (Entrypoint ic) <> ""
      \/ Services (Entrypoint ic) <> [])
  /\ (prints (accounts_block ic) (Summarize ic) <->
      RunAs (Accounts ic) <> ""
      \/ Users (Accounts ic) <> []
      \/ Groups (Accounts ic) <> []).
Proof.
  split; [apply Summarize_prints_contents|]. split.
  - rewrite Summarize_entrypoint_iff. apply entrypoint_guard_spec.
  - rewrite Summarize_accounts_iff. apply accounts_guard_spec.
Qed.

(** X8: the [cmd] line is printed exactly when [Cmd] is set. *)
Theorem Summarize_cmd_iff (ic : ImageConfiguration) :
  In ("  cmd: " +++ Cmd ic) (Summarize ic) <-> Cmd ic <> "".
Proof.
  rewrite <- String.eqb_neq. unfold Summarize. split.
  - intros Hin. destruct (Cmd ic =? ""); [|reflexivity].
    destruct (entrypoint_guard ic), (accounts_guard ic);
      unfold contents_block, entrypoint_block, accounts_block,
             user_line, group_line in Hin;
      lines Hin.
  - intros ->. cbn [negb].
    apply in_or_app. right. apply in_or_app. right.
    apply in_or_app. right. apply in_or_app. left. now left.
Qed.

(** X9: the number of lines of the summary: five for the title and the
    contents, five for the entrypoint block, one for [cmd], and for the
    accounts block four lines and one line for each user and each
    group. *)
Theorem Summarize_length (ic : ImageConfiguration) :
  length (Summarize ic)
  = 5
    + (if entrypoint_guard ic then 5 else 0)
    + (if negb (Cmd ic =? "") then 1 else 0)
    + (if accounts_guard ic
       then 4 + length (Users (Accounts ic)) + length (Groups (Accounts ic))
       else 0).
Proof.
  unfold Summarize, accounts_block.
  destruct (entrypoint_guard ic), (negb (Cmd ic =? "")), (accounts_guard ic);
    repeat rewrite length_app; repeat rewrite length_map; cbn; lia.
Qed.

Lemma prefix_empty (s : string) : prefix "" s = true.
Proof. now destruct s. Qed.

Lemma prefix_same (c : ascii) (s1 s2 : string) :
  prefix (String c s1) (String c s2) = prefix s1 s2.
Proof. cbn [prefix]. now destruct (ascii_dec c c). Qed.

Lemma prefix_differ (c d : ascii) (s1 s2 : string) :
  c <> d -> prefix (String c s1) (String d s2) = false.
Proof. intros H. cbn [prefix]. now destruct (ascii_dec c d). Qed.

(** Deciding whether a line starts with a given text, character by
    character. *)
Ltac starts :=
  cbn [String.append];
  repeat rewrite prefix_same;
  first [ apply prefix_empty | apply prefix_differ; discriminate ].

Lemma user_line_is_user_line (u : User.t) : is_user_line (user_line u) = true.
Proof. unfold is_user_line, user_line. starts. Qed.

Lemma user_line_not_group_line (u : User.t) : is_group_line (user_line u) = false.
Proof. unfold is_group_line, user_line. starts. Qed.

Lemma group_line_is_group_line (g : Group.t) : is_group_line (group_line g) = true.
Proof. unfold is_group_line, group_line. starts. Qed.

Lemma group_line_not_user_line (g : Group.t) : is_user_line (group_line g) = false.
Proof. unfold is_user_line, group_line. starts. Qed.

Lemma filter_user_lines (us : list User.t) :
  filter is_user_line (map user_line us) = map user_line us.
Proof.
  induction us as [|u us IH]; [reflexivity|].
  cbn [map filter]. now rewrite user_line_is_user_line, IH.
Qed.

Lemma filter_user_lines_of_groups (gs : list Group.t) :
  filter is_user_line (map group_line gs) = [].
Proof.
  induction gs as [|g gs IH]; [reflexivity|].
  cbn [map filter]. now rewrite group_line_not_user_line.
Qed.

Lemma filter_group_lines (gs : list Group.t) :
  filter is_group_line (map group_line gs) = map group_line gs.
Proof.
  induction gs as [|g gs IH]; [reflexivity|].
  cbn [map filter]. now rewrite group_line_is_group_line, IH.
Qed.

Lemma filter_group_lines_of_users (us : list User.t) :
  filter is_group_line (map user_line us) = [].
Proof.
  induction us as [|u us IH]; [reflexivity|].
  cbn [map filter]. now rewrite user_line_not_group_line.
Qed.

(** Among the lines that are not account lines none starts like one. *)
Lemma other_lines_filtered (ic : ImageConfiguration) :
  filter is_user_line ("image configuration:" :: contents_block ic) = []
  /\ filter is_group_line ("image configuration:" :: contents_block ic) = []
  /\ filter is_user_line (entrypoint_block ic) = []
  /\ filter is_group_line (entrypoint_block ic) = []
  /\ filter is_user_line ["  cmd: " +++ Cmd ic] = []
  /\ filter is_group_line ["  cmd: " +++ Cmd ic] = []
  /\ filter is_user_line
       ["  accounts:"; "    runas:  " +++ RunAs (Accounts ic); "    users:"] = []
  /\ filter is_group_line
       ["  accounts:"; "    runas:  " +++ RunAs (Accounts ic); "    users:"] = []
  /\ filter is_user_line ["    groups:"] = []
  /\ filter is_group_line ["    groups:"] = [].
Proof.
  unfold contents_block, entrypoint_block, is_user_line, is_group_line.
  cbn [app filter].
  repeat split;
    repeat match goal with
           | |- context [prefix ?a ?b] =>
               replace (prefix a b) with false by (symmetry; starts)
           end;
    reflexivity.
Qed.

Lemma accounts_guard_false (ic : ImageConfiguration) :
  accounts_guard ic = false ->
  Users (Accounts ic) = [] /\ Groups (Accounts ic) = [].
Proof.
  unfold accounts_guard. rewrite !orb_false_iff, !negb_false_iff.
  intros [[_ Hu] Hg].
  destruct (Users (Accounts ic)), (Groups (Accounts ic));
    cbn in Hu, Hg; try discriminate. now split.
Qed.

(** X10: the summary has one line for each declared user and one for
    each declared group, in declaration order, and no other line that
    starts like a user line or a group line. *)
Theorem Summarize_account_lines (ic : ImageConfiguration) :
  filter is_user_line (Summarize ic) = map user_line (Users (Accounts ic))
  /\ filter is_group_line (Summarize ic) = map group_line (Groups (Accounts ic)).
Proof.
  destruct (other_lines_filtered ic)
    as (Hu1 & Hg1 & Hu2 & Hg2 & Hu3 & Hg3 & Hu4 & Hg4 & Hu5 & Hg5).
  assert (Hsum : Summarize ic
                 = ("image configuration:" :: contents_block ic)
                   ++ (if entrypoint_guard ic then entrypoint_block ic else [])
                   ++ (if negb (Cmd ic =? "") then ["  cmd: " +++ Cmd ic] else [])
                   ++ (if accounts_guard ic then accounts_block ic else [])).
  { reflexivity. }
  rewrite Hsum. repeat rewrite filter_app. rewrite Hu1, Hg1.
  assert (He : filter is_user_line
                 (if entrypoint_guard ic then entrypoint_block ic else []) = []
               /\ filter is_group_line
                    (if entrypoint_guard ic then entrypoint_block ic else []) = []).
  { destruct (entrypoint_guard ic); now split. }
  assert (Hc : filter is_user_line
                 (if negb (Cmd ic =? "") then ["  cmd: " +++ Cmd ic] else []) = []
               /\ filter is_group_line
                    (if negb (Cmd ic =? "") then ["  cmd: " +++ Cmd ic] else []) = []).
  { destruct (negb (Cmd ic =? "")); now split. }
  destruct He as [-> ->], Hc as [-> ->]. cbn [app].
  destruct (accounts_guard ic) eqn:Hg.
  - unfold accounts_block. repeat rewrite filter_app.
    rewrite Hu4, Hg4, Hu5, Hg5.
    rewrite filter_user_lines, filter_user_lines_of_groups,
            filter_group_lines, filter_group_lines_of_users.
    cbn [app]. now rewrite app_nil_r.
  - destruct (accounts_guard_false ic Hg) as [-> ->]. now split.
Qed.

(** ** [ProbeVCSUrl]: what a call that returns has done *)

(** X11: a call of [ProbeVCSUrl] that returns has written to [VCSUrl]
    at most: every other part of the configuration is as before.  It
    logs at most one line, and when the configuration differs from
    before, that line is the note naming the URL now stored. *)
Theorem ProbeVCSUrl_frame
    (W : VCSWorld) (imageConfigPath : string)
    (ic ic' : ImageConfiguration) (log : list string) :
  ProbeVCSUrl W imageConfigPath ic = Returns (ic', log) ->
  Contents ic' = Contents ic
  /\ Entrypoint ic' = Entrypoint ic
  /\ Cmd ic' = Cmd ic
  /\ Accounts ic' = Accounts ic
  /\ OSRelease ic' = OSRelease ic
  /\ length log <= 1
  /\ (ic' = ic \/ log = [ "detected " +++ VCSUrl ic' +++ " as VCS URL" ]).
Proof.
  unfold ProbeVCSUrl, store_VCSUrl.
  destruct (_ =? _).
  { intros [= <- <-]. cbn. repeat split; auto. }
  destruct (git_PlainOpen W _) as [repo|err].
  2: { intros [= <- <-]. cbn. repeat split; auto. }
  destruct (Repository_Remote W repo "origin") as [remote|err].
  2: { intros [= <- <-]. cbn. repeat split; auto. }
  destruct (URLs (Remote_Config W remote)) as [|remoteURL rest]; [discriminate|].
  destruct (url_Parse W remoteURL) as [u|err].
  { intros [= <- <-]. cbn. repeat split; auto. }
  destruct (url_Parse W _) as [u|err'].
  - intros [= <- <-]. cbn. repeat split; auto.
  - intros [= <- <-]. cbn. repeat split; auto.
Qed.

Lemma ProbeVCSUrl_frame_witness :
  Accounts (set_VCSUrl "git+ssh://git@host/org/repo.git" one_user) = Accounts one_user
  /\ length [ "detected git+ssh://git@host/org/repo.git as VCS URL" ] <= 1.
Proof.
  destruct (ProbeVCSUrl_frame ssh_origin "/src/app/apko.yaml" one_user
              (set_VCSUrl "git+ssh://git@host/org/repo.git" one_user)
              [ "detected git+ssh://git@host/org/repo.git as VCS URL" ] eq_refl)
    as (_ & _ & _ & Hacc & _ & Hlen & _).
  split; [exact Hacc | exact Hlen].
Defined.

(** X12: only the first URL of [origin] is looked at: dropping the
    others changes nothing in what [ProbeVCSUrl] does. *)
Theorem ProbeVCSUrl_first_url_only
    (W : VCSWorld) (imageConfigPath : string) (ic : ImageConfiguration) :
  ProbeVCSUrl (first_url_only W) imageConfigPath ic
  = ProbeVCSUrl W imageConfigPath ic.
Proof.
  unfold ProbeVCSUrl, store_VCSUrl, first_url_only. cbn.
  destruct (_ =? _); [reflexivity|].
  destruct (git_PlainOpen W _) as [repo|err]; [|reflexivity].
  destruct (Repository_Remote W repo "origin") as [remote|err]; [|reflexivity].
  destruct (URLs (Remote_Config W remote)) as [|remoteURL rest]; reflexivity.
Qed.

Lemma ProbeVCSUrl_lookup_failure_gen
    (W : VCSWorld) (imageConfigPath : string) (ic : ImageConfiguration)
    (err : goerror) :
  filepath_Dir W imageConfigPath <> "" ->
  git_PlainOpen W (filepath_Dir W imageConfigPath) = Err err
  \/ (exists repo,
         git_PlainOpen W (filepath_Dir W imageConfigPath) = Ok repo
         /\ Repository_Remote W repo "origin" = Err err) ->
  ProbeVCSUrl W imageConfigPath ic
  = Returns (ic, [ "unable to determine git vcs url: " +++ err ]).
Proof.
  intros Hdir Hfail. apply String.eqb_neq in Hdir.
  unfold ProbeVCSUrl. rewrite Hdir.
  destruct Hfail as [->|(repo & -> & ->)]; reflexivity.
Qed.

(** X13: when the repository cannot be opened, or has no remote called
    [origin], [ProbeVCSUrl] returns with the configuration as it was and
    one log line that carries the error of the library. *)
Theorem ProbeVCSUrl_lookup_failure
    (W : VCSWorld) (imageConfigPath : string) (ic : ImageConfiguration)
    (err : goerror) :
  filepath_Dir W imageConfigPath <> "" ->
  git_PlainOpen W (filepath_Dir W imageConfigPath) = Err err
  \/ (exists repo,
         git_PlainOpen W (filepath_Dir W imageConfigPath) = Ok repo
         /\ Repository_Remote W repo "origin" = Err err) ->
  ProbeVCSUrl W imageConfigPath ic
  = Returns (ic, [ "unable to determine git vcs url: " +++ err ]).
Proof.
  exact (ProbeVCSUrl_lookup_failure_gen W imageConfigPath ic err).
Qed.

Lemma ProbeVCSUrl_lookup_failure_witness :
  ProbeVCSUrl no_repository "/tmp/apko.yaml" with_vcs_url
  = Returns (with_vcs_url,
             [ "unable to determine git vcs url: repository does not exist" ]).
Proof.
  apply (ProbeVCSUrl_lookup_failure no_repository "/tmp/apko.yaml" with_vcs_url
           "repository does not exist").
  - discriminate.
  - left. reflexivity.
Defined.

(** X14: a URL of [origin] that parses is stored as the parser prints
    it, without rewriting, over whatever [VCSUrl] held. *)
Theorem ProbeVCSUrl_parsable_url
    (W : VCSWorld) (imageConfigPath : string) (ic : ImageConfiguration)
    (repo : Repository W) (remote : Remote W)
    (remoteURL : string) (rest : list string) (u : URL W) :
  filepath_Dir W imageConfigPath <> "" ->
  git_PlainOpen W (filepath_Dir W imageConfigPath) = Ok repo ->
  Repository_Remote W repo "origin" = Ok remote ->
  URLs (Remote_Config W remote) = remoteURL :: rest ->
  url_Parse W remoteURL = Ok u ->
  exists ic',
    ProbeVCSUrl W imageConfigPath ic
    = Returns (ic', [ "detected " +++ URL_String W u +++ " as VCS URL" ])
    /\ VCSUrl ic' = URL_String W u.
Proof.
  intros Hdir Hopen Hrem Hurls Hparse. apply String.eqb_neq in Hdir.
  unfold ProbeVCSUrl, store_VCSUrl.
  rewrite Hdir, Hopen, Hrem, Hurls, Hparse. eauto.
Qed.

Lemma ProbeVCSUrl_parsable_url_witness :
  exists ic',
    ProbeVCSUrl https_origin "/src/app/apko.yaml" with_vcs_url
    = Returns (ic', [ "detected https://github.com/chainguard-dev/apko.git as VCS URL" ])
    /\ VCSUrl ic' = "https://github.com/chainguard-dev/apko.git".
Proof.
  apply (ProbeVCSUrl_parsable_url https_origin "/src/app/apko.yaml" with_vcs_url
           tt tt "https://github.com/chainguard-dev/apko.git"
           ["git@mirror:chainguard-dev/apko.git"]
           "https://github.com/chainguard-dev/apko.git");
    try reflexivity.
  discriminate.
Defined.

(** ** [Load] *)

(** X15: [Load] returns an error in two cases only, and probes in
    neither: the file cannot be read, and then the receiver is as it was
    and the error wraps the cause as a read error; or the document does
    not decode, and then the receiver is as the decoder left it and the
    error wraps the cause as a parse error.  Nothing is logged on the
    way. *)
Theorem Load_error_iff
    (F : FileWorld) (W : VCSWorld) (imageConfigPath : string)
    (ic ic' : ImageConfiguration) (log : list string) (e : LoadError) :
  Load F W imageConfigPath ic = Returns (ic', log, Some e) <->
  (exists cause,
      os_ReadFile F imageConfigPath = Err cause
      /\ e = ReadError cause /\ ic' = ic /\ log = [])
  \/ (exists data cause,
         os_ReadFile F imageConfigPath = Ok data
         /\ yaml_Unmarshal F data ic = (ic', Some cause)
         /\ e = ParseError cause /\ log = []).
Proof.
  unfold Load. split.
  - destruct (os_ReadFile F imageConfigPath) as [data|cause] eqn:Hread.
    + destruct (yaml_Unmarshal F data ic) as [ic1 [cause|]] eqn:Hparse.
      * intros [= <- <- <-]. right. exists data, cause. auto.
      * destruct (VCSUrl ic1 =? ""); [|discriminate].
        destruct (ProbeVCSUrl W imageConfigPath ic1) as [[ic2 log2]|msg];
          discriminate.
    + intros [= <- <- <-]. left. exists cause. auto.
  - intros [(cause & -> & -> & -> & ->)|(data & cause & -> & -> & -> & ->)];
      reflexivity.
Qed.

(** X16: a document that names its VCS URL is loaded without probing:
    whatever the state of the checkout, [Load] returns [nil], logs
    nothing and keeps the URL of the document. *)
Theorem Load_explicit_VCSUrl
    (F : FileWorld) (W : VCSWorld) (imageConfigPath : string)
    (ic doc : ImageConfiguration) (data : list Byte.byte) :
  os_ReadFile F imageConfigPath = Ok data ->
  yaml_Unmarshal F data ic = (doc, None) ->
  VCSUrl doc <> "" ->
  Load F W imageConfigPath ic = Returns (doc, [], None).
Proof.
  intros Hread Hparse Hurl. apply String.eqb_neq in Hurl.
  unfold Load. now rewrite Hread, Hparse, Hurl.
Qed.

Lemma Load_explicit_VCSUrl_witness :
  Load (one_document with_vcs_url) origin_without_url "/src/app/apko.yaml"
    empty_configuration
  = Returns (with_vcs_url, [], None).
Proof.
  apply (Load_explicit_VCSUrl (one_document with_vcs_url) origin_without_url
           "/src/app/apko.yaml" empty_configuration with_vcs_url []).
  - reflexivity.
  - reflexivity.
  - discriminate.
Defined.

(** X17: a probe that fails does not fail the load: for a document
    without VCS URL in a place where the repository cannot be opened or
    has no [origin], [Load] returns [nil] with the configuration of the
    document, its [VCSUrl] still empty, and the one line the probe
    logged. *)
Theorem Load_probe_failure
    (F : FileWorld) (W : VCSWorld) (imageConfigPath : string)
    (ic doc : ImageConfiguration) (data : list Byte.byte) (err : goerror) :
  os_ReadFile F imageConfigPath = Ok data ->
  yaml_Unmarshal F data ic = (doc, None) ->
  VCSUrl doc = "" ->
  filepath_Dir W imageConfigPath <> "" ->
  git_PlainOpen W (filepath_Dir W imageConfigPath) = Err err
  \/ (exists repo,
         git_PlainOpen W (filepath_Dir W imageConfigPath) = Ok repo
         /\ Repository_Remote W repo "origin" = Err err) ->
  Load F W imageConfigPath ic
  = Returns (doc, [ "unable to determine git vcs url: " +++ err ], None).
Proof.
  intros Hread Hparse Hurl Hdir Hfail.
  unfold Load. rewrite Hread, Hparse, Hurl. cbn [String.eqb].
  now rewrite (ProbeVCSUrl_lookup_failure_gen W imageConfigPath doc err Hdir Hfail).
Qed.

Lemma Load_probe_failure_witness :
  Load (one_document one_user) no_repository "/src/app/apko.yaml"
    empty_configuration
  = Returns (one_user,
             [ "unable to determine git vcs url: repository does not exist" ],
             None).
Proof.
  apply (Load_probe_failure (one_document one_user) no_repository
           "/src/app/apko.yaml" empty_configuration one_user []
           "repository does not exist");
    try reflexivity.
  - discriminate.
  - left. reflexivity.
Defined.

(** X18: [Load] does not return only when the probe panics: the file is
    read, the document decodes and names no VCS URL, and the [origin] of
    the enclosing repository has no URL. *)
Theorem Load_panics_iff
    (F : FileWorld) (W : VCSWorld) (imageConfigPath : string)
    (ic : ImageConfiguration) (msg : string) :
  Load F W imageConfigPath ic = Panics msg <->
  exists data doc,
    os_ReadFile F imageConfigPath = Ok data
    /\ yaml_Unmarshal F data ic = (doc, None)
    /\ VCSUrl doc = ""
    /\ ProbeVCSUrl W imageConfigPath doc = Panics msg.
Proof.
  unfold Load. split.
  - destruct (os_ReadFile F imageConfigPath) as [data|cause]; [|discriminate].
    destruct (yaml_Unmarshal F data ic) as [doc [cause|]] eqn:Hparse;
      [discriminate|].
    destruct (VCSUrl doc =? "") eqn:Hurl; [|discriminate].
    apply String.eqb_eq in Hurl.
    destruct (ProbeVCSUrl W imageConfigPath doc) as [[ic2 log2]|msg'] eqn:Hprobe;
      [discriminate|].
    intros [= <-]. exists data, doc. auto.
  - intros (data & doc & -> & -> & Hurl & Hprobe).
    rewrite Hurl. cbn [String.eqb]. now rewrite Hprobe.
Qed.

(** ** [GenerateSBOM]: tags, options and success *)

(** X19: only the first configured tag is used: two contexts that
    differ in their tags alone, and not in the first tag, make the same
    calls and give the same result. *)
Theorem GenerateSBOM_first_tag_only
    (W : SBOMWorld) (bc : Context) (tags : list string) :
  hd_error tags = hd_error (Tags bc) ->
  GenerateSBOM W (with_Tags tags bc) = GenerateSBOM W bc.
Proof.
  intros Hhd. unfold GenerateSBOM, with_Tags. cbn.
  destruct (Nat.eqb (length (SBOMFormats bc)) 0); [reflexivity|].
  destruct tags as [|t ts], (Tags bc) as [|t' ts']; cbn in Hhd;
    try discriminate; [reflexivity|].
  injection Hhd as ->. reflexivity.
Qed.

Lemma GenerateSBOM_first_tag_only_witness :
  GenerateSBOM (staged_world true true true true true)
    (with_Tags ["app:latest"] context_with_tag)
  = GenerateSBOM (staged_world true true true true true) context_with_tag.
Proof.
  exact (GenerateSBOM_first_tag_only (staged_world true true true true true)
           context_with_tag ["app:latest"] eq_refl).
Defined.

(** X20: with no tag configured the tag-parse stage is not entered and
    no tag-parse error is returned, whatever the tag parser would say;
    the other four stages are the whole pipeline. *)
Theorem GenerateSBOM_without_tags (W : SBOMWorld) (bc : Context) :
  SBOMFormats bc <> [] ->
  Tags bc = [] ->
  ~ In TagParse (stages_run (GenerateSBOM W bc))
  /\ (forall tag cause,
         sbom_returned (GenerateSBOM W bc) <> Some (TagParseError tag cause))
  /\ (sbom_returned (GenerateSBOM W bc) = None ->
      stages_run (GenerateSBOM W bc)
      = [LayerRead; DigestStage; PackageIndexRead; Generation]).
Proof.
  intros Hsome Hnone.
  pose proof (GenerateSBOM_stage_order W bc Hsome) as Hord.
  unfold pipeline in Hord. rewrite Hnone in Hord. cbn [app] in Hord.
  destruct (sbom_returned (GenerateSBOM W bc)) as [e|].
  - destruct Hord as [Hin Hrun]. rewrite Hrun.
    split; [|split; [|discriminate]].
    + destruct e; cbn; intuition discriminate.
    + intros tag cause [= ->]. cbn in Hin. intuition discriminate.
  - rewrite Hord. split; [|split; [discriminate|reflexivity]].
    cbn. intuition discriminate.
Qed.

Lemma GenerateSBOM_without_tags_witness :
  sbom_returned
    (GenerateSBOM (staged_world true true false true true)
       (with_Tags [] context_with_tag)) = None
  /\ stages_run
       (GenerateSBOM (staged_world true true false true true)
          (with_Tags [] context_with_tag))
     = [LayerRead; DigestStage; PackageIndexRead; Generation].
Proof.
  split; [reflexivity|].
  apply (GenerateSBOM_without_tags (staged_world true true false true true)
           (with_Tags [] context_with_tag));
    [discriminate | reflexivity | reflexivity].
Defined.

(** X21: when the stages before it succeed, the generator is run on the
    SBOM value made for the work directory with every option assigned:
    tag and name from the first tag, architecture, digest, output
    directory and formats from the context, packages from the package
    index, which was read with tag and name already set.  What
    [GenerateSBOM] returns is then what the generator returns, wrapped
    as a generation error if it fails. *)
Theorem GenerateSBOM_options
    (W : SBOMWorld) (bc : Context) (tag0 : string) (rest : list string)
    (layer : Layer W) (digest : Hash W) (tag : NameTag W)
    (packages : list (Package W)) :
  SBOMFormats bc <> [] ->
  Tags bc = tag0 :: rest ->
  v1tar_LayerFromFile W (TarballPath bc) = Ok layer ->
  Layer_Digest W layer = Ok digest ->
  name_NewTag W tag0 = Ok tag ->
  SBOM_ReadPackageIndex W
    (sbom.set_Name (Tag_String W tag)
       (sbom.set_Tag (Tag_TagStr W tag) (sbom_NewWithWorkDir W (WorkDir bc))))
  = Ok packages ->
  sbom_returned (GenerateSBOM W bc)
  = match SBOM_Generate W
            (sbom.mkSBOM
               (sbom.WorkDir (sbom_NewWithWorkDir W (WorkDir bc)))
               (sbom.mkOptions
                  (sbom.mkImageInfo (Tag_TagStr W tag) (Tag_String W tag)
                     (Arch bc) (Hash_String W digest))
                  (SBOMPath bc) packages (SBOMFormats bc)))
    with
    | Ok _ => None
    | Err cause => Some (SBOMGenerationError cause)
    end.
Proof.
  intros Hsome Htags Hlayer Hdigest Htag Hindex.
  unfold GenerateSBOM, sbom_returned.
  destruct (SBOMFormats bc) as [|f fs] eqn:Hf; [contradiction|].
  unfold run, new_sbom, log_Printf. rewrite Htags. cbn.
  rewrite Hlayer. cbn. rewrite Hdigest. cbn. rewrite Htag. cbn.
  rewrite Hindex. cbn.
  destruct (SBOM_Generate W _); reflexivity.
Qed.

Lemma GenerateSBOM_options_witness :
  sbom_returned (GenerateSBOM (staged_world true true true true false) context_with_tag)
  = Some (SBOMGenerationError "write failed").
Proof.
  exact (GenerateSBOM_options (staged_world true true true true false)
           context_with_tag "app:latest" ["app:1.0"] tt tt tt ["busybox"]
           ltac:(discriminate) eq_refl eq_refl eq_refl eq_refl eq_refl).
Defined.

(** X22: [GenerateSBOM] returns [nil] with a format requested only if
    the tarball was read, its digest computed, the first tag (if there
    is one) parsed, and every stage of the pipeline was gone through. *)
Theorem GenerateSBOM_success (W : SBOMWorld) (bc : Context) :
  SBOMFormats bc <> [] ->
  sbom_returned (GenerateSBOM W bc) = None ->
  (exists layer digest,
      v1tar_LayerFromFile W (TarballPath bc) = Ok layer
      /\ Layer_Digest W layer = Ok digest)
  /\ (forall tag0 rest, Tags bc = tag0 :: rest ->
                        exists tag, name_NewTag W tag0 = Ok tag)
  /\ stages_run (GenerateSBOM W bc) = pipeline bc.
Proof.
  intros Hsome Hok.
  pose proof (GenerateSBOM_stage_order W bc Hsome) as Hord.
  rewrite Hok in Hord. split; [|split; [|exact Hord]].
  - revert Hok. unfold GenerateSBOM, sbom_returned.
    destruct (SBOMFormats bc) as [|f fs]; [contradiction|].
    unfold run, new_sbom, log_Printf. cbn.
    destruct (v1tar_LayerFromFile W (TarballPath bc)) as [layer|err]; cbn;
      [|discriminate].
    destruct (Layer_Digest W layer) as [digest|err] eqn:Hd; cbn; [|discriminate].
    intros _. eauto.
  - intros tag0 rest Htags. revert Hok. unfold GenerateSBOM, sbom_returned.
    destruct (SBOMFormats bc) as [|f fs]; [contradiction|].
    unfold run, new_sbom, log_Printf. rewrite Htags. cbn.
    destruct (v1tar_LayerFromFile W (TarballPath bc)) as [layer|err]; cbn;
      [|discriminate].
    destruct (Layer_Digest W layer) as [digest|err]; cbn; [|discriminate].
    destruct (name_NewTag W tag0) as [tag|err]; cbn; [eauto|discriminate].
Qed.

Lemma GenerateSBOM_success_witness :
  stages_run (GenerateSBOM (staged_world true true true true true) context_with_tag)
  = [LayerRead; DigestStage; TagParse; PackageIndexRead; Generation].
Proof.
  exact (proj2 (proj2 (GenerateSBOM_success
                         (staged_world true true true true true)
                         context_with_tag ltac:(discriminate) eq_refl))).
Defined.
